(** * Focus-one: the day-state reconciliation engine

    A shallow embedding of the state logic of the planner:
    - [types.ts]: the data model ([Task], [TimeBlock], [DayData]);
    - [components/FocusView.tsx]: [getMinutes];
    - [services/geminiService.ts]: [adaptiveReplan];
    - [App.tsx]: the day store ([getDayData], [updateDayData]) and the
      handlers [handleReplan], [handleUndo], [handleToggleTask],
      [handleUpdateDistractions].

    JavaScript strings are modelled as [string] (sequences of 8-bit code
    units); the relational operators on strings are the lexicographic
    order on code units, as in JavaScript.  The React state [days] is a
    [gmap string DayData.t]; a handler is a function from the state it
    closed over (and the state the updater receives) to the next state. *)

From Stdlib Require Import ZArith NArith Lia Bool List.
From Stdlib Require Import Strings.String Strings.Ascii Numbers.DecimalString.
From Stdlib Require OrderedTypeEx DecimalPos DecimalN Sorted.
From stdpp Require Import gmap strings list fin_maps.

Open Scope string_scope.

(** ** JavaScript string primitives *)

Module Js.

(** [a <= b], [a < b], [a > b], [a >= b] on two strings. *)
Definition le (a b : string) : bool := String.leb a b.
Definition lt (a b : string) : bool := String.ltb a b.
Definition gt (a b : string) : bool := String.ltb b a.
Definition ge (a b : string) : bool := String.leb b a.

(** [hay.includes(needle)] *)
Fixpoint includes (hay needle : string) : bool :=
  String.prefix needle hay ||
  match hay with
  | EmptyString => false
  | String _ hay' => includes hay' needle
  end.

(** [s.toLowerCase()], on the ASCII letters. *)
Definition lowerChar (c : ascii) : ascii :=
  let n := N_of_ascii c in
  if (65 <=? n)%N && (n <=? 90)%N then ascii_of_N (n + 32) else c.

Fixpoint toLowerCase (s : string) : string :=
  match s with
  | EmptyString => EmptyString
  | String c s' => String (lowerChar c) (toLowerCase s')
  end.

(** [String(n)] / template interpolation of a non-negative integer. *)
Definition ofN (n : N) : string := NilZero.string_of_uint (N.to_uint n).

(** Truthiness of a string: the empty string is falsy. *)
Definition truthy (s : string) : bool :=
  match s with EmptyString => false | _ => true end.

(** [s.split(':')] *)
Fixpoint splitColon (s : string) : list string :=
  match s with
  | EmptyString => [EmptyString]
  | String c s' =>
      if Ascii.eqb c ":" then EmptyString :: splitColon s'
      else match splitColon s' with
           | x :: r => String c x :: r
           | [] => [String c EmptyString]
           end
  end.

Definition isDigit (c : ascii) : bool :=
  (48 <=? N_of_ascii c)%N && (N_of_ascii c <=? 57)%N.

Definition digitVal (c : ascii) : N := (N_of_ascii c - 48)%N.

Fixpoint digitsValue (acc : N) (s : string) : option N :=
  match s with
  | EmptyString => Some acc
  | String c s' =>
      if isDigit c then digitsValue (10 * acc + digitVal c) s' else None
  end.

(** [Number(s)] on strings of decimal digits ([Number("")] is [0]);
    [None] stands for every other string (NaN, or a numeral in another
    syntax), which the planner never produces for a time. *)
Definition Number (s : string) : option N := digitsValue 0 s.

(** [s.padStart(2, '0')] *)
Definition padStart2 (s : string) : string :=
  match String.length s with
  | 0 => "00" ++ s
  | 1 => "0" ++ s
  | _ => s
  end.

End Js.

(** ** Time arithmetic *)

(** [getMinutes] of FocusView.tsx:
    [const [h, m] = timeStr.split(':').map(Number); return h * 60 + m;] *)
Definition getMinutes (timeStr : string) : option N :=
  match map Js.Number (Js.splitColon timeStr) with
  | Some h :: Some m :: _ => Some (h * 60 + m)%N
  | _ => None
  end.

(** [getCurrentTimeStr] of App.tsx, as a function of the clock's
    [getHours()] and [getMinutes()]. *)
Definition getCurrentTimeStr (hours minutes : N) : string :=
  Js.padStart2 (Js.ofN hours) ++ ":" ++ Js.padStart2 (Js.ofN minutes).

(** A well-formed wall-clock string: two digits of hours in 00-23, a
    colon, two digits of minutes in 00-59. *)
Definition wellFormedTime (s : string) : bool :=
  match s with
  | String h1 (String h2 (String c (String m1 (String m2 EmptyString)))) =>
      Js.isDigit h1 && Js.isDigit h2 && Ascii.eqb c ":" &&
      Js.isDigit m1 && Js.isDigit m2 &&
      (10 * Js.digitVal h1 + Js.digitVal h2 <? 24)%N &&
      (10 * Js.digitVal m1 + Js.digitVal m2 <? 60)%N
  | _ => false
  end.

(** ** The data model (types.ts) *)

Module Priority.
Inductive t := non_negotiable | high | normal.
End Priority.

Module EnergyLevel.
Inductive t := high | medium | low.
End EnergyLevel.

Inductive LifeDomain := Academic | Skill | Health | Spirituality | Routine.

Inductive BlockType := work | break | fixed | routine.

Definition isWork (ty : BlockType) : bool :=
  match ty with work => true | _ => false end.

Module Task.
Record t := mk {
  id : string;
  title : string;
  isFixed : bool;
  fixedTime : option string;
  durationMinutes : Z;
  completed : bool;
  priority : Priority.t;
  energyLevel : EnergyLevel.t;
  domain : LifeDomain
}.

(** [{ ...t, completed: c }] *)
Definition withCompleted (x : t) (c : bool) : t :=
  mk (id x) (title x) (isFixed x) (fixedTime x) (durationMinutes x) c
     (priority x) (energyLevel x) (domain x).

(** [{ ...t, id: i }] *)
Definition withId (x : t) (i : string) : t :=
  mk i (title x) (isFixed x) (fixedTime x) (durationMinutes x) (completed x)
     (priority x) (energyLevel x) (domain x).
End Task.

Module TimeBlock.
Record t := mk {
  id : string;
  startTime : string;
  endTime : string;
  taskId : option string;
  label : string;
  type : BlockType;
  isCompleted : bool;
  energyLevel : option EnergyLevel.t;
  priority : option Priority.t;
  domain : option LifeDomain
}.

(** [{ ...b, isCompleted: c }] *)
Definition withIsCompleted (b : t) (c : bool) : t :=
  mk (id b) (startTime b) (endTime b) (taskId b) (label b) (type b) c
     (energyLevel b) (priority b) (domain b).

(** [b.taskId === taskId], for a string [taskId]. *)
Definition hasTask (b : t) (tid : string) : bool :=
  match taskId b with
  | Some x => String.eqb x tid
  | None => false
  end.
End TimeBlock.

(** The [previousVersion] snapshot of a day. *)
Module Snapshot.
Record t := mk {
  tasks : list Task.t;
  schedule : list TimeBlock.t;
  explanation : string
}.
End Snapshot.

Module DayData.
Record t := mk {
  tasks : list Task.t;
  schedule : list TimeBlock.t;
  explanation : string;
  date : string;
  distractions : option (list string);
  previousVersion : option Snapshot.t
}.
End DayData.

(** [Partial<DayData>]: [None] is a key the update does not name.  The two
    optional fields of [DayData] can be named with the value [undefined]
    ([Some None]), as [handleUndo] does for [previousVersion]. *)
Module PartialDayData.
Record t := mk {
  tasks : option (list Task.t);
  schedule : option (list TimeBlock.t);
  explanation : option string;
  date : option string;
  distractions : option (option (list string));
  previousVersion : option (option Snapshot.t)
}.

(** [{ ...d, ...u }] *)
Definition spread (d : DayData.t) (u : t) : DayData.t :=
  DayData.mk
    (default (DayData.tasks d) (tasks u))
    (default (DayData.schedule d) (schedule u))
    (default (DayData.explanation d) (explanation u))
    (default (DayData.date d) (date u))
    (default (DayData.distractions d) (distractions u))
    (default (DayData.previousVersion d) (previousVersion u)).
End PartialDayData.

(** [ReplanResult] *)
Module ReplanResult.
Record t := mk {
  tasks : list Task.t;
  schedule : list TimeBlock.t;
  explanation : string
}.
End ReplanResult.

(** ** The replan gateway (services/geminiService.ts) *)

(** A schedule entry of the parsed reply:
    [Omit<TimeBlock, 'id' | 'isCompleted'>]. *)
Module RawBlock.
Record t := mk {
  startTime : string;
  endTime : string;
  taskId : option string;
  label : string;
  type : BlockType;
  energyLevel : option EnergyLevel.t;
  priority : option Priority.t;
  domain : option LifeDomain
}.
End RawBlock.

(** The parsed reply [data] of [adaptiveReplan]; a task whose [id] is
    missing carries the empty string, which is falsy all the same. *)
Module ReplanData.
Record t := mk {
  tasks : list Task.t;
  schedule : list RawBlock.t;
  explanation : string
}.
End ReplanData.

(** Truthiness of [string | null | undefined]. *)
Definition truthyId (o : option string) : bool :=
  match o with
  | Some s => Js.truthy s
  | None => false
  end.

Section Gateway.

(** The request to the model and the parsing of its reply
    ([ai.models.generateContent], the empty-text check and [JSON.parse]),
    as a function of the values interpolated into the prompt: the task
    list, the time now, the end of day and the context.  [None] is any
    exception thrown inside the [try] block: a failed request, an empty
    reply, a reply that does not parse or is not of the declared shape. *)
Variable generateContent :
  list Task.t -> string -> string -> string -> option ReplanData.t.

(** [Date.now()] as read while the [i]-th task, and the [i]-th block, of
    the reply is mapped. *)
Variable dateNowTask : nat -> N.
Variable dateNowBlock : nat -> N.

Definition finalTask (i : nat) (t : Task.t) : Task.t :=
  Task.withId t
    (if Js.truthy (Task.id t) then Task.id t
     else "new-task-" ++ Js.ofN (dateNowTask i) ++ "-" ++ Js.ofN (N.of_nat i)).

Definition titleMatches (b : RawBlock.t) (t : Task.t) : bool :=
  Js.includes (Js.toLowerCase (RawBlock.label b)) (Js.toLowerCase (Task.title t)) ||
  Js.includes (Js.toLowerCase (Task.title t)) (Js.toLowerCase (RawBlock.label b)).

Definition linkTaskId (finalTasks : list Task.t) (b : RawBlock.t) : option string :=
  let linkedTaskId := RawBlock.taskId b in
  let taskExists :=
    existsb (fun t => match linkedTaskId with
                      | Some x => String.eqb (Task.id t) x
                      | None => false
                      end) finalTasks in
  if (negb (truthyId linkedTaskId) || negb taskExists) && isWork (RawBlock.type b)
  then match find (titleMatches b) finalTasks with
       | Some matching => Some (Task.id matching)
       | None => linkedTaskId
       end
  else linkedTaskId.

Definition finalBlock (finalTasks : list Task.t) (i : nat) (b : RawBlock.t)
  : TimeBlock.t :=
  let linkedTaskId := linkTaskId finalTasks b in
  TimeBlock.mk
    ("replan-block-" ++ Js.ofN (dateNowBlock i) ++ "-" ++ Js.ofN (N.of_nat i))
    (RawBlock.startTime b)
    (RawBlock.endTime b)
    (if truthyId linkedTaskId then linkedTaskId else None)
    (RawBlock.label b)
    (RawBlock.type b)
    false
    (RawBlock.energyLevel b)
    (RawBlock.priority b)
    (Some (default Routine (RawBlock.domain b))).

Definition adaptiveReplan (tasks : list Task.t)
    (dayStartTime dayEndTime context : string) : ReplanResult.t :=
  let safeEndTime :=
    if Js.ge dayStartTime dayEndTime && negb (String.eqb dayEndTime "23:59")
    then "23:59" else dayEndTime in
  match generateContent tasks dayStartTime safeEndTime context with
  | Some data =>
      let finalTasks := imap finalTask (ReplanData.tasks data) in
      let finalSchedule := imap (finalBlock finalTasks) (ReplanData.schedule data) in
      ReplanResult.mk finalTasks finalSchedule (ReplanData.explanation data)
  | None =>
      ReplanResult.mk tasks [] "Replan failed. Please try again."
  end.

End Gateway.

(** ** The day store and the handlers (App.tsx) *)

(** The record [getDayData] synthesises for a date that has none. *)
Definition emptyDay (date : string) : DayData.t :=
  DayData.mk [] [] "" date (Some []) None.

(** What a handler does to the application: [alert(msg)] and nothing else,
    or one [setDays] whose updater yields the next store. *)
Inductive Outcome :=
| Alert (msg : string)
| SetDays (next : gmap string DayData.t).

(** The store after the handler, [prev] being the store before it. *)
Definition nextDays (prev : gmap string DayData.t) (o : Outcome)
  : gmap string DayData.t :=
  match o with
  | Alert _ => prev
  | SetDays next => next
  end.

Section App.

(** The gateway and the millisecond clock of [adaptiveReplan]. *)
Variable generateContent :
  list Task.t -> string -> string -> string -> option ReplanData.t.
Variable dateNowTask : nat -> N.
Variable dateNowBlock : nat -> N.

(** The state of the render the handlers were created in: a handler reads
    [days] through [getDayData], also after an [await]. *)
Variable days : gmap string DayData.t.
Variable selectedDate : string.
Variable todayStr : string.

Definition getDayData (date : string) : DayData.t :=
  default (emptyDay date) (days !! date).

(** [setDays(prev => ({ ...prev, [date]: { ...getDayData(date), ...updates } }))],
    as the updater applied to [prev]. *)
Definition updateDayData (date : string) (updates : PartialDayData.t)
    (prev : gmap string DayData.t) : gmap string DayData.t :=
  <[date := PartialDayData.spread (getDayData date) updates]> prev.

(** The copy pushed for the block in progress:
    [{ ...block, id, endTime: currentTime, label, isCompleted, domain }]. *)
Definition truncated (currentTime : string) (block : TimeBlock.t) : TimeBlock.t :=
  TimeBlock.mk
    (TimeBlock.id block ++ "-truncated")
    (TimeBlock.startTime block)
    currentTime
    (TimeBlock.taskId block)
    (if Js.includes (TimeBlock.label block) "(Partial)"
     then TimeBlock.label block
     else TimeBlock.label block ++ " (Partial)")
    (TimeBlock.type block)
    (TimeBlock.isCompleted block)
    (TimeBlock.energyLevel block)
    (TimeBlock.priority block)
    (TimeBlock.domain block).

(** The [forEach] of [handleReplan], one block at a time: [pastBlocks] is
    the array the callback pushes to. *)
Definition preserveStep (currentTime : string)
    (pastBlocks : list TimeBlock.t) (block : TimeBlock.t) : list TimeBlock.t :=
  if Js.le (TimeBlock.endTime block) currentTime then
    (pastBlocks ++ [block])%list
  else if Js.lt (TimeBlock.startTime block) currentTime
          && Js.gt (TimeBlock.endTime block) currentTime then
    (pastBlocks ++ [truncated currentTime block])%list
  else pastBlocks.

Definition preserveHistory (currentTime : string) (schedule : list TimeBlock.t)
  : list TimeBlock.t :=
  fold_left (preserveStep currentTime) schedule [].

(** [customContext || "Replanning for remainder of day."] *)
Definition contextOrDefault (customContext : option string) : string :=
  match customContext with
  | Some c => if Js.truthy c then c else "Replanning for remainder of day."
  | None => "Replanning for remainder of day."
  end.

(** The snapshot [{ tasks, schedule, explanation }] of a record. *)
Definition snapshotOf (d : DayData.t) : Snapshot.t :=
  Snapshot.mk (DayData.tasks d) (DayData.schedule d) (DayData.explanation d).

(** [handleReplan(customContext)]; [currentTime] is what
    [getCurrentTimeStr()] returns when the handler starts, [prev] the store
    the updater receives once the gateway has answered. *)
Definition handleReplan (currentTime : string) (customContext : option string)
    (prev : gmap string DayData.t) : Outcome :=
  if negb (String.eqb selectedDate todayStr) then
    Alert "You can only adapt the schedule for Today."
  else
    let currentData := getDayData todayStr in
    let previousVersion := snapshotOf currentData in
    let pastBlocks := preserveHistory currentTime (DayData.schedule currentData) in
    let replanContext := contextOrDefault customContext in
    let result :=
      adaptiveReplan generateContent dateNowTask dateNowBlock
        (DayData.tasks currentData) currentTime "23:59" replanContext in
    let newBlocks := ReplanResult.schedule result in
    SetDays
      (updateDayData todayStr
         (PartialDayData.mk
            (Some (ReplanResult.tasks result))
            (Some (pastBlocks ++ newBlocks)%list)
            (Some (ReplanResult.explanation result))
            None
            None
            (Some (Some previousVersion)))
         prev).

Definition handleUndo (prev : gmap string DayData.t) : gmap string DayData.t :=
  let currentData := getDayData selectedDate in
  match DayData.previousVersion currentData with
  | Some pv =>
      updateDayData selectedDate
        (PartialDayData.mk
           (Some (Snapshot.tasks pv))
           (Some (Snapshot.schedule pv))
           (Some (Snapshot.explanation pv))
           None
           None
           (Some None))
        prev
  | None => prev
  end.

(** The [map] over the tasks of [handleToggleTask], whose callback also
    assigns the local [isNowCompleted]: the state threaded through the
    tasks is the list built so far and the flag. *)
Definition toggleStep (taskId : string) (st : list Task.t * bool) (t : Task.t)
  : list Task.t * bool :=
  if String.eqb (Task.id t) taskId then
    ((st.1 ++ [Task.withCompleted t (negb (Task.completed t))])%list,
     negb (Task.completed t))
  else ((st.1 ++ [t])%list, st.2).

Definition toggleTasks (taskId : string) (tasks : list Task.t)
  : list Task.t * bool :=
  fold_left (toggleStep taskId) tasks ([], false).

(** The two blocks an in-progress block is split into. *)
Definition completedBlock (currentTime : string) (block : TimeBlock.t) : TimeBlock.t :=
  TimeBlock.mk
    (TimeBlock.id block)
    (TimeBlock.startTime block)
    currentTime
    (TimeBlock.taskId block)
    (TimeBlock.label block ++ " (Done)")
    (TimeBlock.type block)
    true
    (TimeBlock.energyLevel block)
    (TimeBlock.priority block)
    (TimeBlock.domain block).

Definition bufferBlock (currentTime : string) (block : TimeBlock.t) : TimeBlock.t :=
  TimeBlock.mk
    (TimeBlock.id block ++ "-buffer")
    currentTime
    (TimeBlock.endTime block)
    None
    "Efficiency Bonus"
    break
    false
    (Some EnergyLevel.low)
    None
    (Some Routine).

(** The callback of the [flatMap] of [handleToggleTask]. *)
Definition completeBlock (currentTime taskId : string) (block : TimeBlock.t)
  : list TimeBlock.t :=
  if TimeBlock.hasTask block taskId then
    if Js.gt currentTime (TimeBlock.startTime block)
       && Js.lt currentTime (TimeBlock.endTime block)
    then [completedBlock currentTime block; bufferBlock currentTime block]
    else [TimeBlock.withIsCompleted block true]
  else [block].

(** [b => b.taskId === taskId ? { ...b, isCompleted: c } : b] *)
Definition markBlock (taskId : string) (c : bool) (b : TimeBlock.t) : TimeBlock.t :=
  if TimeBlock.hasTask b taskId then TimeBlock.withIsCompleted b c else b.

(** [handleToggleTask(taskId)]; [currentTime] is what [getCurrentTimeStr()]
    returns in the branch that reads the clock. *)
Definition handleToggleTask (currentTime : string) (taskId : string)
    (prev : gmap string DayData.t) : gmap string DayData.t :=
  let currentData := getDayData selectedDate in
  let '(newTasks, isNowCompleted) := toggleTasks taskId (DayData.tasks currentData) in
  let newSchedule :=
    if String.eqb selectedDate todayStr then
      if isNowCompleted then
        flat_map (completeBlock currentTime taskId) (DayData.schedule currentData)
      else map (markBlock taskId false) (DayData.schedule currentData)
    else
      if isNowCompleted then
        map (markBlock taskId true) (DayData.schedule currentData)
      else map (markBlock taskId false) (DayData.schedule currentData) in
  updateDayData selectedDate
    (PartialDayData.mk (Some newTasks) (Some newSchedule) None None None None)
    prev.

Definition handleUpdateDistractions (newDistractions : list string)
    (prev : gmap string DayData.t) : gmap string DayData.t :=
  updateDayData selectedDate
    (PartialDayData.mk None None None None (Some (Some newDistractions)) None)
    prev.

End App.

(** ** Date keys (App.tsx, components/CalendarStrip.tsx) *)

(** [getTodayStr] of App.tsx and [formatDate] of CalendarStrip.tsx, as a
    function of the date's [getFullYear()], [getMonth()] (from 0) and
    [getDate()]. *)
Definition getTodayStr (year month date : N) : string :=
  Js.ofN year ++ "-" ++ Js.padStart2 (Js.ofN (month + 1)) ++ "-"
  ++ Js.padStart2 (Js.ofN date).

(** ** More string primitives *)

Module JsText.

(** White space, for strings of code units below 256: tab to carriage
    return, space, no-break space. *)
Definition isWhiteSpace (c : ascii) : bool :=
  let n := N_of_ascii c in
  ((9 <=? n)%N && (n <=? 13)%N) || (n =? 32)%N || (n =? 160)%N.

Fixpoint trimStart (s : string) : string :=
  match s with
  | EmptyString => EmptyString
  | String c s' => if isWhiteSpace c then trimStart s' else s
  end.

Fixpoint trimEnd (s : string) : string :=
  match s with
  | EmptyString => EmptyString
  | String c s' =>
      match trimEnd s' with
      | EmptyString => if isWhiteSpace c then EmptyString else String c EmptyString
      | t => String c t
      end
  end.

(** [s.trim()] *)
Definition trim (s : string) : string := trimEnd (trimStart s).

End JsText.

(** ** The other gateways (services/geminiService.ts) *)

(** The parsed reply [data] of [generateDailyPlan]. *)
Module PlanData.
Record t := mk {
  schedule : list RawBlock.t;
  explanation : string
}.
End PlanData.

(** [ScheduleResult] *)
Module ScheduleResult.
Record t := mk {
  schedule : list TimeBlock.t;
  explanation : string
}.
End ScheduleResult.

(** [ChatMessage] *)
Module ChatMessage.
Inductive Role := user | model.
Record t := mk {
  id : string;
  role : Role;
  text : string;
  timestamp : N
}.
End ChatMessage.

Section Planning.

(** The request of [generateDailyPlan] and the parsing of its reply, as a
    function of the values in the prompt; [None] is any exception thrown
    inside the [try] block. *)
Variable planContent :
  list Task.t -> string -> string -> string -> option PlanData.t.

(** The request of [generateScheduleFromChat]: its prompt holds the
    conversation only.  A task of the reply is read as a [Task.t] whose
    [id] and [completed] are overwritten, a block as a [RawBlock.t] whose
    [taskId] is overwritten. *)
Variable chatContent : list ChatMessage.t -> option ReplanData.t.

(** [Date.now()] as read while the [i]-th element is mapped. *)
Variable dateNowTask : nat -> N.
Variable dateNowBlock : nat -> N.

Definition planBlock (i : nat) (b : RawBlock.t) : TimeBlock.t :=
  TimeBlock.mk
    ("block-" ++ Js.ofN (dateNowBlock i) ++ "-" ++ Js.ofN (N.of_nat i))
    (RawBlock.startTime b)
    (RawBlock.endTime b)
    (if truthyId (RawBlock.taskId b) then RawBlock.taskId b else None)
    (RawBlock.label b)
    (RawBlock.type b)
    false
    (RawBlock.energyLevel b)
    (RawBlock.priority b)
    (Some (default Routine (RawBlock.domain b))).

Definition generateDailyPlan (tasks : list Task.t)
    (dayStartTime dayEndTime context : string) : ScheduleResult.t :=
  match planContent tasks dayStartTime dayEndTime context with
  | Some data =>
      ScheduleResult.mk (imap planBlock (PlanData.schedule data))
                        (PlanData.explanation data)
  | None =>
      ScheduleResult.mk [] "AI Generation Failed. Please try again."
  end.

Definition processedTask (i : nat) (t : Task.t) : Task.t :=
  Task.mk
    ("task-" ++ Js.ofN (dateNowTask i) ++ "-" ++ Js.ofN (N.of_nat i))
    (Task.title t) (Task.isFixed t) (Task.fixedTime t) (Task.durationMinutes t)
    false
    (Task.priority t) (Task.energyLevel t) (Task.domain t).

Definition processedBlock (processedTasks : list Task.t) (i : nat) (b : RawBlock.t)
  : TimeBlock.t :=
  let matchingTask := find (titleMatches b) processedTasks in
  TimeBlock.mk
    ("block-" ++ Js.ofN (dateNowBlock i) ++ "-" ++ Js.ofN (N.of_nat i))
    (RawBlock.startTime b)
    (RawBlock.endTime b)
    (match matchingTask with
     | Some t => Some (Task.id t)
     | None => None
     end)
    (RawBlock.label b)
    (RawBlock.type b)
    false
    (RawBlock.energyLevel b)
    (RawBlock.priority b)
    (Some (default Routine (RawBlock.domain b))).

Definition generateScheduleFromChat (history : list ChatMessage.t)
    (dayStartTime dayEndTime : string) : ReplanResult.t :=
  match chatContent history with
  | Some data =>
      let processedTasks := imap processedTask (ReplanData.tasks data) in
      let processedSchedule :=
        imap (processedBlock processedTasks) (ReplanData.schedule data) in
      ReplanResult.mk processedTasks processedSchedule (ReplanData.explanation data)
  | None =>
      ReplanResult.mk [] [] "Could not generate plan from conversation."
  end.

End Planning.

(** ** The other handlers of App.tsx *)

(** [action] of [handleAssistantAction]: the payload of a replan is the
    context, if any; the payload of a completion is the task id. *)
Inductive AssistantAction :=
| REPLAN (payload : option string)
| MARK_COMPLETE (payload : string).

(** [React.SetStateAction<Task[]>]: a value or a function of the value. *)
Inductive SetTasksAction :=
| TasksValue (tasks : list Task.t)
| TasksUpdater (f : list Task.t -> list Task.t).

Section AppHandlers.

Variable generateContent :
  list Task.t -> string -> string -> string -> option ReplanData.t.
Variable planContent :
  list Task.t -> string -> string -> string -> option PlanData.t.
Variable dateNowTask : nat -> N.
Variable dateNowBlock : nat -> N.

Variable days : gmap string DayData.t.
Variable selectedDate : string.
Variable todayStr : string.

(** The effect "ensure today exists in store". *)
Definition ensureToday (prev : gmap string DayData.t) : gmap string DayData.t :=
  match days !! todayStr with
  | Some _ => prev
  | None => <[todayStr := emptyDay todayStr]> prev
  end.

Definition handleGeneratePlan (start end_ : string)
    (prev : gmap string DayData.t) : gmap string DayData.t :=
  let currentData := getDayData days selectedDate in
  let result :=
    generateDailyPlan planContent dateNowBlock (DayData.tasks currentData)
      start end_ ("Planning for " ++ selectedDate) in
  updateDayData days selectedDate
    (PartialDayData.mk None
       (Some (ScheduleResult.schedule result))
       (Some (ScheduleResult.explanation result))
       None None None)
    prev.

Definition handleApplyChatPlan (newTasks : list Task.t)
    (newSchedule : list TimeBlock.t) (newExplanation : string)
    (prev : gmap string DayData.t) : gmap string DayData.t :=
  updateDayData days selectedDate
    (PartialDayData.mk (Some newTasks) (Some newSchedule) (Some newExplanation)
       None None None)
    prev.

(** The [setTasks] handed to the planning view. *)
Definition setTasks (newTasks : SetTasksAction)
    (prev : gmap string DayData.t) : gmap string DayData.t :=
  let t :=
    match newTasks with
    | TasksUpdater f => f (DayData.tasks (getDayData days selectedDate))
    | TasksValue v => v
    end in
  updateDayData days selectedDate
    (PartialDayData.mk (Some t) None None None None None)
    prev.

Definition handleAssistantAction (currentTime : string) (action : AssistantAction)
    (prev : gmap string DayData.t) : Outcome :=
  match action with
  | REPLAN payload =>
      handleReplan generateContent dateNowTask dateNowBlock days selectedDate
        todayStr currentTime payload prev
  | MARK_COMPLETE payload =>
      if String.eqb selectedDate todayStr then
        SetDays (handleToggleTask days selectedDate todayStr currentTime payload prev)
      else Alert "Coach actions only apply when viewing Today."
  end.

(** [canUndo] as handed to the focus view. *)
Definition canUndo : bool :=
  match DayData.previousVersion (getDayData days selectedDate) with
  | Some _ => true
  | None => false
  end.

(** [handleAddDistraction] of FocusView.tsx, whose [todayData] is
    [getDayData(todayStr)] and whose [onUpdateDistractions] is
    [handleUpdateDistractions]. *)
Definition handleAddDistraction (text : string)
    (prev : gmap string DayData.t) : gmap string DayData.t :=
  let current := default [] (DayData.distractions (getDayData days todayStr)) in
  handleUpdateDistractions days selectedDate (current ++ [text])%list prev.

(** [handleSaveDistraction] of ZenFocusMode.tsx, whose [onAddDistraction]
    is [handleAddDistraction]. *)
Definition handleSaveDistraction (distraction : string)
    (prev : gmap string DayData.t) : gmap string DayData.t :=
  if negb (Js.truthy (JsText.trim distraction)) then prev
  else handleAddDistraction distraction prev.

End AppHandlers.

(** ** The "now" logic of FocusView.tsx *)

(** [currentMinutes >= start && currentMinutes < end], the test of the
    active block; a comparison with NaN is false. *)
Definition containsNow (currentMinutes : option N) (b : TimeBlock.t) : bool :=
  match currentMinutes,
        getMinutes (TimeBlock.startTime b), getMinutes (TimeBlock.endTime b) with
  | Some c, Some start, Some end_ => (start <=? c)%N && (c <? end_)%N
  | _, _, _ => false
  end.

(** [getMinutes(b.startTime) > currentMinutes] *)
Definition startsAfter (currentMinutes : option N) (b : TimeBlock.t) : bool :=
  match currentMinutes, getMinutes (TimeBlock.startTime b) with
  | Some c, Some start => (c <? start)%N
  | _, _ => false
  end.

(** The comparator [(a, b) => getMinutes(a.startTime) - getMinutes(b.startTime)]
    is not positive; a NaN difference counts as zero. *)
Definition startsNoLater (a b : TimeBlock.t) : bool :=
  match getMinutes (TimeBlock.startTime a), getMinutes (TimeBlock.startTime b) with
  | Some x, Some y => (x <=? y)%N
  | _, _ => true
  end.

(** [[...schedule].sort(comparator)]: the stable sort, by insertion. *)
Fixpoint insertByStart (b : TimeBlock.t) (sorted : list TimeBlock.t)
  : list TimeBlock.t :=
  match sorted with
  | [] => [b]
  | x :: rest =>
      if startsNoLater b x then b :: x :: rest
      else x :: insertByStart b rest
  end.

Definition sortByStart (schedule : list TimeBlock.t) : list TimeBlock.t :=
  fold_right insertByStart [] schedule.

Section NowMode.

(** [todayData] and the minute offset of the clock string. *)
Variable todayData : DayData.t.
Variable currentMinutes : option N.

Definition todayScheduleSorted : list TimeBlock.t :=
  sortByStart (DayData.schedule todayData).

Definition hasPlan : bool :=
  negb (Nat.eqb (length (DayData.tasks todayData)) 0).

Definition activeBlock : option TimeBlock.t :=
  find (containsNow currentMinutes) todayScheduleSorted.

Definition nextBlock : option TimeBlock.t :=
  match activeBlock with
  | None =>
      if hasPlan then find (startsAfter currentMinutes) todayScheduleSorted
      else None
  | Some _ => None
  end.

Definition incompleteTasks : list Task.t :=
  List.filter (fun t => negb (Task.completed t)) (DayData.tasks todayData).

End NowMode.

(** ** Manual planning (components/PlanningView.tsx) *)

Definition MAX_TASKS_PER_DAY : nat := 7.

Definition isNonNegotiable (p : Priority.t) : bool :=
  match p with Priority.non_negotiable => true | _ => false end.

(** The fields of the entry form. *)
Module TaskForm.
Record t := mk {
  newTaskTitle : string;
  newTaskDuration : Z;
  isFixed : bool;
  fixedTime : string;
  priority : Priority.t;
  energy : EnergyLevel.t;
  domain : LifeDomain
}.
End TaskForm.

(** What [handleAddTask] does: nothing, an alert, or one [setTasks]. *)
Inductive AddTaskOutcome :=
| Ignored
| Refused (msg : string)
| SetTasks (next : list Task.t).

Definition tasksAfter (tasks : list Task.t) (o : AddTaskOutcome) : list Task.t :=
  match o with
  | SetTasks next => next
  | _ => tasks
  end.

Section PlanningView.

(** The [tasks] prop and [Date.now()]. *)
Variable tasks : list Task.t.
Variable dateNow : N.

Definition hasNonNegotiable : bool :=
  existsb (fun t => isNonNegotiable (Task.priority t)) tasks.

Definition handleAddTask (form : TaskForm.t) : AddTaskOutcome :=
  if negb (Js.truthy (JsText.trim (TaskForm.newTaskTitle form))) then Ignored
  else if Nat.leb MAX_TASKS_PER_DAY (length tasks) then Ignored
  else if isNonNegotiable (TaskForm.priority form) && hasNonNegotiable then
    Refused "You can only have one Non-Negotiable task per day."
  else
    let newTask :=
      Task.mk (Js.ofN dateNow)
              (TaskForm.newTaskTitle form)
              (TaskForm.isFixed form)
              (if TaskForm.isFixed form then Some (TaskForm.fixedTime form) else None)
              (TaskForm.newTaskDuration form)
              false
              (TaskForm.priority form)
              (TaskForm.energy form)
              (TaskForm.domain form) in
    SetTasks (tasks ++ [newTask])%list.

Definition removeTask (id : string) : list Task.t :=
  List.filter (fun t => negb (String.eqb (Task.id t) id)) tasks.

End PlanningView.

(** ** Progress figures (DailyProgressChart.tsx, LifeProgressView.tsx) *)

Definition domainEqb (a b : LifeDomain) : bool :=
  match a, b with
  | Academic, Academic | Skill, Skill | Health, Health
  | Spirituality, Spirituality | Routine, Routine => true
  | _, _ => false
  end.

(** [list.reduce((acc, t) => acc + t.durationMinutes, 0)] *)
Definition sumDurations (list : list Task.t) : Z :=
  fold_left (fun acc t => (acc + Task.durationMinutes t)%Z) list 0%Z.

Section DailyProgressChart.

Variable tasks : list Task.t.
Variable schedule : list TimeBlock.t.

Definition totalTasks : nat := length tasks.
Definition completedTasks : nat := length (List.filter Task.completed tasks).

Definition workBlocks : list TimeBlock.t :=
  List.filter (fun b => isWork (TimeBlock.type b)) schedule.
Definition completedBlocks : list TimeBlock.t :=
  List.filter TimeBlock.isCompleted workBlocks.

Definition chartDomains : list LifeDomain :=
  [Academic; Skill; Health; Spirituality].

Definition domainData : list (LifeDomain * Z) :=
  map (fun d =>
         let domainTasks := List.filter (fun t => domainEqb (Task.domain t) d) tasks in
         let completedMinutes := sumDurations (List.filter Task.completed domainTasks) in
         (d, completedMinutes))
      chartDomains.

Definition totalMinutes : Z :=
  fold_left (fun acc d => (acc + d.2)%Z) domainData 0%Z.

End DailyProgressChart.

Inductive DomainStatus := Inactive | Strong | Active | Pending.

Module DomainStats.
Record t := mk {
  plannedCount : nat;
  completedCount : nat;
  totalMinutes : Z;
  completedMinutes : Z;
  status : DomainStatus
}.
End DomainStats.

(** [getDomainStats] of LifeProgressView.tsx *)
Definition getDomainStats (tasks : list Task.t) (domainId : LifeDomain)
  : DomainStats.t :=
  let domainTasks := List.filter (fun t => domainEqb (Task.domain t) domainId) tasks in
  let plannedCount := length domainTasks in
  let completedCount := length (List.filter Task.completed domainTasks) in
  let totalMinutes := sumDurations domainTasks in
  let completedMinutes := sumDurations (List.filter Task.completed domainTasks) in
  let status :=
    if Nat.ltb 0 plannedCount then
      if Nat.eqb completedCount plannedCount then Strong
      else if Nat.ltb 0 completedCount then Active
      else Pending
    else Inactive in
  DomainStats.mk plannedCount completedCount totalMinutes completedMinutes status.

(** ** The chat gateways and the floating assistant *)

(** [AssistantResponse] of geminiService.ts *)
Module AssistantResponse.
Inductive Intent := NONE | REPLAN | MARK_COMPLETE.
Record t := mk {
  text : string;
  intent : Intent;
  replanContext : option string;
  taskId : option string
}.
End AssistantResponse.

(** [history.slice(-n)] *)
Definition sliceLast {A : Type} (n : nat) (history : list A) : list A :=
  drop (length history - n) history.

Section Coach.

(** The chat of [fastChatResponse]: [None] is an exception, [Some text] the
    [result.text] of the answer, which can be undefined. *)
Variable chatSend :
  list ChatMessage.t -> string -> option string -> option (option string).

(** The request of [getFloatingCoachResponse] and the parsing of its
    reply, as a function of the values in the prompt. *)
Variable coachContent :
  list ChatMessage.t -> string -> string -> option AssistantResponse.t.

Definition fastChatResponse (history : list ChatMessage.t) (newMessage : string)
    (context : option string) : string :=
  if negb (Js.truthy (JsText.trim newMessage))
     || Nat.ltb (String.length (JsText.trim newMessage)) 2
  then "Could you clarify what you mean?"
  else
    match chatSend history newMessage context with
    | Some text =>
        match text with
        | Some t => if Js.truthy t then t else "Keep pushing forward."
        | None => "Keep pushing forward."
        end
    | None => "Connection error. Focus on your task."
    end.

Definition getFloatingCoachResponse (history : list ChatMessage.t)
    (context userMessage : string) : AssistantResponse.t :=
  if negb (Js.truthy (JsText.trim userMessage)) then
    AssistantResponse.mk "How can I help you?" AssistantResponse.NONE None None
  else
    match coachContent (sliceLast 8 history) context userMessage with
    | Some response => response
    | None =>
        AssistantResponse.mk "I'm having trouble connecting to my brain."
                             AssistantResponse.NONE None None
    end.

(** The action [handleSend] of FloatingAssistant.tsx hands to [onAction],
    if any; [messages] are the messages before the one being sent. *)
Definition coachAction (input : string) (isLoading : bool)
    (messages : list ChatMessage.t) (context : string) : option AssistantAction :=
  if negb (Js.truthy (JsText.trim input)) || isLoading then None
  else
    let result := getFloatingCoachResponse messages context input in
    match AssistantResponse.intent result with
    | AssistantResponse.REPLAN => Some (REPLAN (AssistantResponse.replanContext result))
    | AssistantResponse.MARK_COMPLETE =>
        match AssistantResponse.taskId result with
        | Some id => if Js.truthy id then Some (MARK_COMPLETE id) else None
        | None => None
        end
    | AssistantResponse.NONE => None
    end.

End Coach.

(** ** Sample data

    The day of the worked examples: a block done, a block of task X in
    progress at 09:45, a block later in the day. *)

Module Sample.

Definition today : string := "2026-01-15".

Definition taskX : Task.t :=
  Task.mk "X" "Write report" false None 90 false
          Priority.high EnergyLevel.high Academic.

Definition blockDone : TimeBlock.t :=
  TimeBlock.mk "b1" "08:00" "09:00" None "Morning review" routine true
               None None (Some Routine).

Definition blockX : TimeBlock.t :=
  TimeBlock.mk "b2" "09:00" "10:30" (Some "X") "Write report" work false
               (Some EnergyLevel.high) None (Some Academic).

Definition blockLater : TimeBlock.t :=
  TimeBlock.mk "b3" "11:00" "12:00" None "Reading" work true
               None None (Some Skill).

Definition day : DayData.t :=
  DayData.mk [taskX] [blockDone; blockX; blockLater] "Initial plan." today
             (Some ["check mail"]) None.

Definition days : gmap string DayData.t := {[ today := day ]}.

(** A gateway whose call fails, one that answers, and a clock. *)
Definition noReply (_ : list Task.t) (_ _ _ : string) : option ReplanData.t :=
  None.

Definition reply (tasks : list Task.t) (_ _ _ : string) : option ReplanData.t :=
  Some (ReplanData.mk tasks
          [RawBlock.mk "10:00" "11:00" None "write REPORT, part two" work
                       None None None;
           RawBlock.mk "09:45" "10:00" None "Pause" break None None None]
          "Report first.").

Definition clock (_ : nat) : N := 1768467600000%N.

(** The block of task X, relabelled by an earlier completion. *)
Definition blockXDone : TimeBlock.t :=
  TimeBlock.mk "b2" "09:00" "10:30" (Some "X") "Write report (Done)" work false
               (Some EnergyLevel.high) None (Some Academic).

Definition daysRelabelled : gmap string DayData.t :=
  {[ today := DayData.mk [taskX] [blockXDone] "Initial plan." today (Some []) None ]}.

(** A completed block whose task is no longer in the task list. *)
Definition blockOrphan : TimeBlock.t :=
  TimeBlock.mk "b0" "07:00" "08:00" (Some "gone") "Inbox zero" work true
               None None (Some Routine).

Definition daysOrphan : gmap string DayData.t :=
  {[ today := DayData.mk [taskX] [blockOrphan; blockX] "Initial plan." today
                         (Some []) None ]}.


End Sample.

(** * Properties *)

(** ** Time arithmetic *)

Section TimeArithmetic.

Local Open Scope N_scope.

Lemma isDigit_range (c : ascii) :
  Js.isDigit c = true -> 48 <= N_of_ascii c <= 57.
Proof.
  unfold Js.isDigit. rewrite andb_true_iff, !N.leb_le. tauto.
Qed.

Lemma digit_not_colon (c : ascii) :
  Js.isDigit c = true -> Ascii.eqb c ":" = false.
Proof.
  intros Hd. apply isDigit_range in Hd.
  apply Ascii.eqb_neq. intros ->. simpl in Hd. lia.
Qed.

(** The shape of a well-formed time, with the code units as numbers. *)
Lemma wellFormedTime_inv (s : string) :
  wellFormedTime s = true ->
  exists h1 h2 m1 m2 : ascii,
    s = String h1 (String h2 (String ":" (String m1 (String m2 EmptyString)))) /\
    Js.isDigit h1 = true /\ Js.isDigit h2 = true /\
    Js.isDigit m1 = true /\ Js.isDigit m2 = true /\
    10 * Js.digitVal h1 + Js.digitVal h2 < 24 /\
    10 * Js.digitVal m1 + Js.digitVal m2 < 60.
Proof.
  destruct s as [|h1 [|h2 [|c [|m1 [|m2 [|? ?]]]]]]; simpl; try discriminate.
  rewrite !andb_true_iff, !N.ltb_lt.
  intros [[[[[[H1 H2] Hc] H3] H4] Hh] Hm].
  apply Ascii.eqb_eq in Hc. subst c.
  exists h1, h2, m1, m2. tauto.
Qed.

Lemma getMinutes_digits (h1 h2 m1 m2 : ascii) :
  Js.isDigit h1 = true -> Js.isDigit h2 = true ->
  Js.isDigit m1 = true -> Js.isDigit m2 = true ->
  getMinutes (String h1 (String h2 (String ":" (String m1 (String m2 EmptyString)))))
  = Some ((10 * Js.digitVal h1 + Js.digitVal h2) * 60
          + (10 * Js.digitVal m1 + Js.digitVal m2)).
Proof.
  intros H1 H2 H3 H4. unfold getMinutes. cbn [Js.splitColon].
  rewrite (digit_not_colon _ H1), (digit_not_colon _ H2),
          (digit_not_colon _ H3), (digit_not_colon _ H4).
  cbn [Ascii.eqb Bool.eqb map Js.Number Js.digitsValue].
  rewrite H1, H2, H3, H4. do 2 f_equal; lia.
Qed.

(** A well-formed time has a minute offset below 1440. *)
Lemma getMinutes_wellFormed (s : string) :
  wellFormedTime s = true -> exists a, getMinutes s = Some a /\ a < 1440.
Proof.
  intros Hs.
  destruct (wellFormedTime_inv s Hs)
    as (h1 & h2 & m1 & m2 & -> & H1 & H2 & H3 & H4 & Hh & Hm).
  eexists. split; [apply getMinutes_digits; assumption | lia].
Qed.

(** The lexicographic order of two well-formed times, read off the
    comparison of their minute offsets. *)
Lemma compare_wellFormed (s t : string) (a b : N) :
  wellFormedTime s = true -> wellFormedTime t = true ->
  getMinutes s = Some a -> getMinutes t = Some b ->
  String.compare s t = (a ?= b).
Proof.
  intros Hs Ht.
  destruct (wellFormedTime_inv s Hs)
    as (h1 & h2 & m1 & m2 & -> & H1 & H2 & H3 & H4 & Hh & Hm).
  destruct (wellFormedTime_inv t Ht)
    as (k1 & k2 & n1 & n2 & -> & K1 & K2 & K3 & K4 & Kh & Km).
  rewrite !getMinutes_digits by assumption.
  intros [= <-] [= <-].
  apply isDigit_range in H1, H2, H3, H4, K1, K2, K3, K4.
  unfold Js.digitVal in *.
  cbn [String.compare]. unfold Ascii.compare.
  symmetry.
  destruct (N.compare_spec (N_of_ascii h1) (N_of_ascii k1)) as [E1|L1|G1];
    [ | apply N.compare_lt_iff; lia | apply N.compare_gt_iff; lia].
  destruct (N.compare_spec (N_of_ascii h2) (N_of_ascii k2)) as [E2|L2|G2];
    [ | apply N.compare_lt_iff; lia | apply N.compare_gt_iff; lia].
  change (N_of_ascii ":" ?= N_of_ascii ":") with Eq. cbv iota.
  destruct (N.compare_spec (N_of_ascii m1) (N_of_ascii n1)) as [E3|L3|G3];
    [ | apply N.compare_lt_iff; lia | apply N.compare_gt_iff; lia].
  destruct (N.compare_spec (N_of_ascii m2) (N_of_ascii n2)) as [E4|L4|G4];
    [ apply N.compare_eq_iff; lia
    | apply N.compare_lt_iff; lia | apply N.compare_gt_iff; lia].
Qed.

(** C7. For well-formed "HH:MM" strings [s] and [t] (hours 00-23, minutes
    00-59), [getMinutes] is defined on both, and the string comparisons of
    the reconciler and of the replan partition ([<=] and [<], hence [>=]
    and [>]) agree with the numeric comparison of the minute offsets:
    [s <= t] as strings iff [getMinutes s <= getMinutes t], and likewise
    for [<]. *)
Theorem string_order_is_minute_order (s t : string) :
  wellFormedTime s = true -> wellFormedTime t = true ->
  exists a b : N,
    getMinutes s = Some a /\ getMinutes t = Some b /\
    (Js.le s t = true <-> a <= b) /\
    (Js.lt s t = true <-> a < b) /\
    (Js.ge s t = true <-> b <= a) /\
    (Js.gt s t = true <-> b < a).
Proof.
  intros Hs Ht.
  destruct (getMinutes_wellFormed s Hs) as (a & Ha & _).
  destruct (getMinutes_wellFormed t Ht) as (b & Hb & _).
  exists a, b. split; [assumption|]. split; [assumption|].
  pose proof (compare_wellFormed s t a b Hs Ht Ha Hb) as Hst.
  pose proof (compare_wellFormed t s b a Ht Hs Hb Ha) as Hts.
  unfold Js.le, Js.lt, Js.ge, Js.gt, String.leb, String.ltb.
  rewrite Hst, Hts.
  repeat split; intros H;
    try (destruct (N.compare_spec a b); (discriminate || lia || reflexivity));
    try (destruct (N.compare_spec b a); (discriminate || lia || reflexivity)).
Qed.

Lemma string_order_is_minute_order_witness :
  exists a b : N,
    getMinutes "14:05" = Some a /\ getMinutes "14:30" = Some b /\
    (Js.le "14:05" "14:30" = true <-> a <= b) /\
    (Js.lt "14:05" "14:30" = true <-> a < b) /\
    (Js.ge "14:05" "14:30" = true <-> b <= a) /\
    (Js.gt "14:05" "14:30" = true <-> b < a).
Proof.
  apply (string_order_is_minute_order "14:05" "14:30"); reflexivity.
Defined.

End TimeArithmetic.

(** ** The order on strings *)

Section StringOrder.

Lemma lt_iff_compare (a b : string) :
  Js.lt a b = true <-> String.compare a b = Lt.
Proof.
  unfold Js.lt, String.ltb. destruct (String.compare a b); intuition discriminate.
Qed.

Lemma le_iff_compare (a b : string) :
  Js.le a b = true <-> String.compare a b <> Gt.
Proof.
  unfold Js.le, String.leb. destruct (String.compare a b); intuition discriminate.
Qed.



Lemma le_lt_trans (a b c : string) :
  Js.le a b = true -> Js.lt b c = true -> Js.lt a c = true.
Proof.
  rewrite le_iff_compare, !lt_iff_compare. intros Hab Hbc.
  destruct (String.compare a b) eqn:E; [| |congruence].
  - apply String.compare_eq_iff in E. subst. assumption.
  - apply OrderedTypeEx.String_as_OT.cmp_lt.
    apply OrderedTypeEx.String_as_OT.lt_trans with b; apply OrderedTypeEx.String_as_OT.cmp_lt; assumption.
Qed.

End StringOrder.

(** ** Substrings *)

Section Includes.



Lemma append_length (a b : string) :
  String.length (a ++ b) = String.length a + String.length b.
Proof. induction a as [|c a IH]; simpl; [reflexivity | rewrite IH; reflexivity]. Qed.

Lemma append_suffix_neq (a b : string) : b <> "" -> a ++ b <> a.
Proof.
  intros Hb E. apply (f_equal String.length) in E.
  rewrite append_length in E. destruct b; [congruence|simpl in E; lia].
Qed.

End Includes.

(** ** The day store *)

Section Store.

Implicit Types (days prev : gmap string DayData.t) (date : string).

Lemma lookup_updateDayData_eq days date u prev :
  updateDayData days date u prev !! date
  = Some (PartialDayData.spread (getDayData days date) u).
Proof. unfold updateDayData. apply lookup_insert_eq. Qed.

Lemma lookup_updateDayData_ne days date u prev other :
  other <> date -> updateDayData days date u prev !! other = prev !! other.
Proof. intros Hne. unfold updateDayData. apply lookup_insert_ne. congruence. Qed.

Lemma getDayData_lookup days date r :
  days !! date = Some r -> getDayData days date = r.
Proof. unfold getDayData. intros ->. reflexivity. Qed.

Lemma getDayData_updateDayData days date u prev :
  getDayData (updateDayData days date u prev) date
  = PartialDayData.spread (getDayData days date) u.
Proof. apply getDayData_lookup, lookup_updateDayData_eq. Qed.

(** Reading a date never stored gives the empty record of that date. *)
Lemma getDayData_unknown days date :
  days !! date = None -> getDayData days date = emptyDay date.
Proof. unfold getDayData. intros ->. reflexivity. Qed.

End Store.

(** ** The history kept by a replan *)

Section PreserveHistory.

Variable currentTime : string.

Lemma preserveStep_acc (acc : list TimeBlock.t) (block : TimeBlock.t) :
  preserveStep currentTime acc block
  = (acc ++ preserveStep currentTime [] block)%list.
Proof.
  unfold preserveStep.
  destruct (Js.le _ _); [reflexivity|].
  destruct (_ && _); [reflexivity|]. symmetry. apply app_nil_r.
Qed.

Lemma fold_preserveStep (schedule acc : list TimeBlock.t) :
  fold_left (preserveStep currentTime) schedule acc
  = (acc ++ flat_map (preserveStep currentTime []) schedule)%list.
Proof.
  revert acc. induction schedule as [|b l IH]; intros acc; cbn [fold_left flat_map].
  - symmetry. apply app_nil_r.
  - rewrite IH, (preserveStep_acc acc b), <- app_assoc. reflexivity.
Qed.

Lemma preserveHistory_flat_map (schedule : list TimeBlock.t) :
  preserveHistory currentTime schedule
  = flat_map (preserveStep currentTime []) schedule.
Proof. unfold preserveHistory. apply fold_preserveStep. Qed.

(** The partition is computed block by block, in schedule order. *)
Lemma preserveHistory_app (l1 l2 : list TimeBlock.t) :
  preserveHistory currentTime (l1 ++ l2)
  = (preserveHistory currentTime l1 ++ preserveHistory currentTime l2)%list.
Proof. rewrite !preserveHistory_flat_map. apply flat_map_app. Qed.


Lemma preserveStep_past (b : TimeBlock.t) :
  Js.le (TimeBlock.endTime b) currentTime = true ->
  preserveStep currentTime [] b = [b].
Proof. unfold preserveStep. intros ->. reflexivity. Qed.



(** Every block a replan keeps comes from a block of the schedule, verbatim
    or truncated. *)
Lemma preserveHistory_origin (schedule : list TimeBlock.t) (b : TimeBlock.t) :
  In b (preserveHistory currentTime schedule) ->
  exists b0, In b0 schedule /\ (b = b0 \/ b = truncated currentTime b0).
Proof.
  rewrite preserveHistory_flat_map, in_flat_map.
  intros (b0 & Hin & Hb). exists b0. split; [assumption|].
  unfold preserveStep in Hb.
  destruct (Js.le _ _); [destruct Hb as [<-|[]]; auto|].
  destruct (_ && _); [destruct Hb as [<-|[]]; auto | destruct Hb].
Qed.

End PreserveHistory.

(** ** Adaptive replan and undo *)

Section Replan.

Variable generateContent :
  list Task.t -> string -> string -> string -> option ReplanData.t.
Variable dateNowTask : nat -> N.
Variable dateNowBlock : nat -> N.

Implicit Types (days prev : gmap string DayData.t).
Implicit Types (todayStr currentTime : string) (customContext : option string).

Local Abbreviation replan := (handleReplan generateContent dateNowTask dateNowBlock).
Local Abbreviation gateway := (adaptiveReplan generateContent dateNowTask dateNowBlock).

(** The reply of the gateway to the request [handleReplan] sends. *)
Local Abbreviation replyTo days todayStr currentTime customContext :=
  (generateContent (DayData.tasks (getDayData days todayStr)) currentTime "23:59"
     (contextOrDefault customContext)).

Local Abbreviation resultFor days todayStr currentTime customContext :=
  (gateway (DayData.tasks (getDayData days todayStr)) currentTime "23:59"
     (contextOrDefault customContext)).

(** On today's date the handler performs exactly one update of the store. *)
Lemma handleReplan_today days todayStr currentTime customContext prev :
  replan days todayStr todayStr currentTime customContext prev
  = SetDays
      (updateDayData days todayStr
         (PartialDayData.mk
            (Some (ReplanResult.tasks (resultFor days todayStr currentTime customContext)))
            (Some (preserveHistory currentTime (DayData.schedule (getDayData days todayStr))
                   ++ ReplanResult.schedule
                        (resultFor days todayStr currentTime customContext))%list)
            (Some (ReplanResult.explanation
                     (resultFor days todayStr currentTime customContext)))
            None None
            (Some (Some (snapshotOf (getDayData days todayStr)))))
         prev).
Proof. unfold handleReplan. rewrite String.eqb_refl. reflexivity. Qed.

(** On any other date it only alerts. *)
Lemma handleReplan_other_date days selectedDate todayStr currentTime customContext prev :
  selectedDate <> todayStr ->
  replan days selectedDate todayStr currentTime customContext prev
  = Alert "You can only adapt the schedule for Today.".
Proof.
  intros Hne. unfold handleReplan.
  apply String.eqb_neq in Hne. rewrite Hne. reflexivity.
Qed.

(** The record of today after a replan, field by field. *)
Lemma replan_record days todayStr currentTime customContext prev :
  let pre := getDayData days todayStr in
  let result := resultFor days todayStr currentTime customContext in
  nextDays prev (replan days todayStr todayStr currentTime customContext prev)
    !! todayStr
  = Some (DayData.mk
            (ReplanResult.tasks result)
            (preserveHistory currentTime (DayData.schedule pre)
               ++ ReplanResult.schedule result)%list
            (ReplanResult.explanation result)
            (DayData.date pre)
            (DayData.distractions pre)
            (Some (snapshotOf pre))).
Proof.
  intros pre result. rewrite handleReplan_today. cbn [nextDays].
  rewrite lookup_updateDayData_eq. reflexivity.
Qed.

(** What [adaptiveReplan] returns from its [catch] block. *)
Lemma adaptiveReplan_failure (tasks : list Task.t) (dayStartTime context : string) :
  generateContent tasks dayStartTime "23:59" context = None ->
  gateway tasks dayStartTime "23:59" context
  = ReplanResult.mk tasks [] "Replan failed. Please try again.".
Proof.
  intros Hfail. unfold adaptiveReplan.
  cbn [String.eqb Ascii.eqb Bool.eqb negb andb].
  rewrite andb_false_r, Hfail. reflexivity.
Qed.

(** The record of today after an undo that follows a replan. *)
Lemma replan_undo_record days todayStr currentTime customContext prev :
  let pre := getDayData days todayStr in
  let days1 :=
    nextDays prev (replan days todayStr todayStr currentTime customContext prev) in
  handleUndo days1 todayStr days1 !! todayStr
  = Some (DayData.mk (DayData.tasks pre) (DayData.schedule pre)
            (DayData.explanation pre) (DayData.date pre)
            (DayData.distractions pre) None).
Proof.
  intros pre days1. unfold handleUndo.
  rewrite (getDayData_lookup days1 todayStr _ (replan_record _ _ _ _ _)).
  cbn [DayData.previousVersion]. rewrite lookup_updateDayData_eq.
  rewrite (getDayData_lookup days1 todayStr _ (replan_record _ _ _ _ _)).
  reflexivity.
Qed.

(** An undo on a record without snapshot leaves the store as it is. *)
Lemma handleUndo_no_snapshot days selectedDate prev :
  DayData.previousVersion (getDayData days selectedDate) = None ->
  handleUndo days selectedDate prev = prev.
Proof. intros H. unfold handleUndo. rewrite H. reflexivity. Qed.


(** C1 (amended). When the gateway call fails, the replan on today's date
    keeps the record's tasks, distractions and date; it writes back the
    past partition of the schedule (the blocks from now on are removed),
    replaces [previousVersion] by the snapshot of the pre-call tasks,
    schedule and explanation, and sets the explanation to the failure
    message. *)
Theorem failed_replan_record days todayStr currentTime customContext prev :
  replyTo days todayStr currentTime customContext = None ->
  let pre := getDayData days todayStr in
  exists r : DayData.t,
    nextDays prev (replan days todayStr todayStr currentTime customContext prev)
      !! todayStr = Some r /\
    DayData.tasks r = DayData.tasks pre /\
    DayData.distractions r = DayData.distractions pre /\
    DayData.date r = DayData.date pre /\
    DayData.schedule r = preserveHistory currentTime (DayData.schedule pre) /\
    DayData.previousVersion r = Some (snapshotOf pre) /\
    DayData.explanation r = "Replan failed. Please try again.".
Proof.
  intros Hfail pre. eexists. split; [apply replan_record|].
  rewrite (adaptiveReplan_failure _ _ _ Hfail).
  cbn [DayData.tasks DayData.distractions DayData.date DayData.schedule
       DayData.previousVersion DayData.explanation
       ReplanResult.tasks ReplanResult.schedule ReplanResult.explanation].
  rewrite app_nil_r. repeat split; reflexivity.
Qed.

(** C2. When the gateway call fails during a replan, the tasks of the
    resulting record are the pre-call tasks, the gateway contributes no
    block, and every block of the resulting schedule is a block of the
    pre-call schedule, verbatim or truncated at the current time. *)
Theorem failed_replan_keeps_tasks days todayStr currentTime customContext prev :
  replyTo days todayStr currentTime customContext = None ->
  let pre := getDayData days todayStr in
  ReplanResult.schedule (resultFor days todayStr currentTime customContext) = [] /\
  exists r : DayData.t,
    nextDays prev (replan days todayStr todayStr currentTime customContext prev)
      !! todayStr = Some r /\
    DayData.tasks r = DayData.tasks pre /\
    DayData.schedule r
    = (preserveHistory currentTime (DayData.schedule pre) ++ [])%list /\
    forall b, In b (DayData.schedule r) ->
      exists b0, In b0 (DayData.schedule pre) /\
                 (b = b0 \/ b = truncated currentTime b0).
Proof.
  intros Hfail pre.
  rewrite (adaptiveReplan_failure _ _ _ Hfail). split; [reflexivity|].
  eexists. split; [apply replan_record|].
  rewrite (adaptiveReplan_failure _ _ _ Hfail).
  cbn [DayData.tasks DayData.schedule ReplanResult.tasks ReplanResult.schedule].
  repeat split. intros b. rewrite app_nil_r. apply preserveHistory_origin.
Qed.


(** C6. A replan followed by an undo restores the record's tasks, schedule
    and explanation to their pre-replan values and clears
    [previousVersion]; a second undo, with no snapshot left, returns the
    same store. *)
Theorem replan_undo_restores days todayStr currentTime customContext prev :
  let pre := getDayData days todayStr in
  let days1 :=
    nextDays prev (replan days todayStr todayStr currentTime customContext prev) in
  let days2 := handleUndo days1 todayStr days1 in
  let days3 := handleUndo days2 todayStr days2 in
  (exists r : DayData.t,
     days2 !! todayStr = Some r /\
     DayData.tasks r = DayData.tasks pre /\
     DayData.schedule r = DayData.schedule pre /\
     DayData.explanation r = DayData.explanation pre /\
     DayData.previousVersion r = None) /\
  days3 = days2.
Proof.
  intros pre days1 days2 days3.
  pose proof (replan_undo_record days todayStr currentTime customContext prev) as Hrec.
  cbv zeta in Hrec. fold days1 in Hrec. fold days2 in Hrec.
  split.
  - eexists. split; [exact Hrec|]. repeat split.
  - unfold days3. apply handleUndo_no_snapshot.
    rewrite (getDayData_lookup _ _ _ Hrec). reflexivity.
Qed.

(** C10. A replan on today's date, whatever the gateway answers, sets
    [previousVersion] to the snapshot of the pre-call tasks, schedule and
    explanation; so an undo after a failed replan gives back the pre-replan
    record, the blocks the failed replan removed included, with
    [previousVersion] cleared. *)
Theorem replan_always_snapshots days todayStr currentTime customContext prev :
  let pre := getDayData days todayStr in
  let days1 :=
    nextDays prev (replan days todayStr todayStr currentTime customContext prev) in
  (exists r1 : DayData.t,
     days1 !! todayStr = Some r1 /\
     DayData.previousVersion r1
     = Some (Snapshot.mk (DayData.tasks pre) (DayData.schedule pre)
               (DayData.explanation pre))) /\
  (replyTo days todayStr currentTime customContext = None ->
   (exists r1 : DayData.t,
      days1 !! todayStr = Some r1 /\
      DayData.schedule r1 = preserveHistory currentTime (DayData.schedule pre)) /\
   handleUndo days1 todayStr days1 !! todayStr
   = Some (DayData.mk (DayData.tasks pre) (DayData.schedule pre)
             (DayData.explanation pre) (DayData.date pre)
             (DayData.distractions pre) None)).
Proof.
  intros pre days1. split.
  - eexists. split; [apply replan_record|]. reflexivity.
  - intros Hfail. split.
    + eexists. split; [apply replan_record|].
      rewrite (adaptiveReplan_failure _ _ _ Hfail).
      cbn [DayData.schedule ReplanResult.schedule]. apply app_nil_r.
    + apply replan_undo_record.
Qed.

End Replan.

(** ** Task completion *)

Section Toggle.

Implicit Types (days prev : gmap string DayData.t).
Implicit Types (selectedDate todayStr currentTime taskId : string).

(** The task list the [map] of [handleToggleTask] builds. *)
Lemma fold_toggleStep_tasks taskId (tasks : list Task.t) (st : list Task.t * bool) :
  (fold_left (toggleStep taskId) tasks st).1
  = (st.1 ++ map (fun t => if String.eqb (Task.id t) taskId
                           then Task.withCompleted t (negb (Task.completed t))
                           else t) tasks)%list.
Proof.
  revert st. induction tasks as [|t l IH]; intros st; cbn [fold_left map].
  - symmetry. apply app_nil_r.
  - rewrite IH. unfold toggleStep.
    destruct (String.eqb (Task.id t) taskId); cbn [fst];
      rewrite <- app_assoc; reflexivity.
Qed.

(** Without a task of that id, the list is rebuilt as it was and the flag
    keeps its initial value. *)
Lemma fold_toggleStep_absent taskId (tasks : list Task.t) (st : list Task.t * bool) :
  (forall t, In t tasks -> Task.id t <> taskId) ->
  fold_left (toggleStep taskId) tasks st = ((st.1 ++ tasks)%list, st.2).
Proof.
  revert st. induction tasks as [|t l IH]; intros st Habs; cbn [fold_left].
  - rewrite app_nil_r. destruct st; reflexivity.
  - rewrite IH by (intros t' Ht'; apply Habs; right; assumption).
    unfold toggleStep.
    assert (Hne : String.eqb (Task.id t) taskId = false)
      by (apply String.eqb_neq, Habs; left; reflexivity).
    rewrite Hne. cbn [fst snd]. rewrite <- app_assoc. reflexivity.
Qed.

(** When every task of that id is not completed, the flag ends up set as
    soon as one such task exists. *)
Lemma fold_toggleStep_flag taskId (tasks : list Task.t) (st : list Task.t * bool) :
  (forall t, In t tasks -> Task.id t = taskId -> Task.completed t = false) ->
  st.2 = true \/ (exists t, In t tasks /\ Task.id t = taskId) ->
  (fold_left (toggleStep taskId) tasks st).2 = true.
Proof.
  revert st. induction tasks as [|t l IH]; intros st Hopen Hsome; cbn [fold_left].
  - destruct Hsome as [H | (t & [] & _)]. exact H.
  - apply IH; [intros t' Ht'; apply Hopen; right; assumption|].
    unfold toggleStep. destruct (String.eqb (Task.id t) taskId) eqn:E.
    + left. cbn [snd]. apply String.eqb_eq in E.
      rewrite (Hopen t (or_introl eq_refl) E). reflexivity.
    + destruct Hsome as [H | (t' & [<- | Hin] & Hid)].
      * left. exact H.
      * apply String.eqb_neq in E. contradiction.
      * right. exists t'. split; assumption.
Qed.

Lemma hasTask_iff (b : TimeBlock.t) taskId :
  TimeBlock.hasTask b taskId = true <-> TimeBlock.taskId b = Some taskId.
Proof.
  unfold TimeBlock.hasTask. destruct (TimeBlock.taskId b) as [x|].
  - rewrite String.eqb_eq. split; congruence.
  - split; discriminate.
Qed.

Lemma completeBlock_other currentTime taskId (b : TimeBlock.t) :
  TimeBlock.taskId b <> Some taskId -> completeBlock currentTime taskId b = [b].
Proof.
  intros Hne. unfold completeBlock.
  destruct (TimeBlock.hasTask b taskId) eqn:E; [|reflexivity].
  apply hasTask_iff in E. contradiction.
Qed.

Lemma completeBlock_in_progress currentTime taskId (b : TimeBlock.t) :
  TimeBlock.taskId b = Some taskId ->
  Js.lt (TimeBlock.startTime b) currentTime = true ->
  Js.lt currentTime (TimeBlock.endTime b) = true ->
  completeBlock currentTime taskId b
  = [completedBlock currentTime b; bufferBlock currentTime b].
Proof.
  intros Hid Hs He. unfold completeBlock, Js.gt.
  apply hasTask_iff in Hid. rewrite Hid.
  fold (Js.lt (TimeBlock.startTime b) currentTime). rewrite Hs, He. reflexivity.
Qed.

(** One more block for each block that is split. *)
Lemma length_flat_map_completeBlock currentTime taskId (schedule : list TimeBlock.t) :
  length (flat_map (completeBlock currentTime taskId) schedule)
  = length schedule
    + length (List.filter (fun b => TimeBlock.hasTask b taskId
                                    && (Js.gt currentTime (TimeBlock.startTime b)
                                        && Js.lt currentTime (TimeBlock.endTime b)))
                schedule).
Proof.
  induction schedule as [|b l IH]; [reflexivity|].
  cbn [flat_map List.filter]. rewrite length_app, IH.
  unfold completeBlock.
  destruct (TimeBlock.hasTask b taskId); cbn [andb];
    [destruct (_ && _)|]; cbn [length]; lia.
Qed.

Lemma markBlock_false_id taskId (b : TimeBlock.t) :
  (TimeBlock.hasTask b taskId = true -> TimeBlock.isCompleted b = false) ->
  markBlock taskId false b = b.
Proof.
  intros H. unfold markBlock.
  destruct (TimeBlock.hasTask b taskId); [|reflexivity].
  destruct b as [? ? ? ? ? ? c ? ? ?]. cbn in H. rewrite (H eq_refl). reflexivity.
Qed.

(** The record written by a toggle that completes the task, on today's
    date. *)
Lemma toggle_completes_record days todayStr currentTime taskId prev :
  let pre := getDayData days todayStr in
  (exists t, In t (DayData.tasks pre) /\ Task.id t = taskId) ->
  (forall t, In t (DayData.tasks pre) -> Task.id t = taskId ->
             Task.completed t = false) ->
  handleToggleTask days todayStr todayStr currentTime taskId prev !! todayStr
  = Some (DayData.mk
            (map (fun t => if String.eqb (Task.id t) taskId
                           then Task.withCompleted t (negb (Task.completed t))
                           else t) (DayData.tasks pre))
            (flat_map (completeBlock currentTime taskId) (DayData.schedule pre))
            (DayData.explanation pre) (DayData.date pre)
            (DayData.distractions pre) (DayData.previousVersion pre)).
Proof.
  intros pre Hsome Hopen. unfold handleToggleTask. fold pre.
  pose proof (fold_toggleStep_tasks taskId (DayData.tasks pre) ([], false)) as Ht.
  pose proof (fold_toggleStep_flag taskId (DayData.tasks pre) ([], false)
                Hopen (or_intror Hsome)) as Hf.
  fold (toggleTasks taskId (DayData.tasks pre)) in Ht, Hf.
  destruct (toggleTasks taskId (DayData.tasks pre)) as [newTasks flag].
  cbn [fst snd app] in Ht, Hf. subst newTasks flag.
  rewrite String.eqb_refl, lookup_updateDayData_eq. reflexivity.
Qed.

(** The record written by a toggle of a task that is not in the list. *)
Lemma toggle_absent_record days selectedDate todayStr currentTime taskId prev :
  let pre := getDayData days selectedDate in
  (forall t, In t (DayData.tasks pre) -> Task.id t <> taskId) ->
  handleToggleTask days selectedDate todayStr currentTime taskId prev !! selectedDate
  = Some (DayData.mk
            (DayData.tasks pre)
            (map (markBlock taskId false) (DayData.schedule pre))
            (DayData.explanation pre) (DayData.date pre)
            (DayData.distractions pre) (DayData.previousVersion pre)).
Proof.
  intros pre Habs. unfold handleToggleTask. fold pre.
  unfold toggleTasks. rewrite (fold_toggleStep_absent _ _ _ Habs). cbn [fst snd app].
  rewrite lookup_updateDayData_eq.
  destruct (String.eqb selectedDate todayStr); reflexivity.
Qed.

(** C4. On today's date, completing task [taskId] while the current time
    lies strictly inside a block [B] of that task replaces [B], in place, by
    two blocks: the completed block (id and startTime of [B], endTime = now,
    isCompleted = true) and then the buffer block (derived id, from now to
    the endTime of [B], "Efficiency Bonus", break, no task, not completed,
    low energy, Routine).  Blocks of other tasks are left as they are, and
    the schedule grows by one block for each block that is split. *)
Theorem toggle_splits_in_progress days todayStr currentTime taskId prev
    (l1 l2 : list TimeBlock.t) (B : TimeBlock.t) :
  let pre := getDayData days todayStr in
  (exists t, In t (DayData.tasks pre) /\ Task.id t = taskId) ->
  (forall t, In t (DayData.tasks pre) -> Task.id t = taskId ->
             Task.completed t = false) ->
  DayData.schedule pre = (l1 ++ B :: l2)%list ->
  TimeBlock.taskId B = Some taskId ->
  Js.lt (TimeBlock.startTime B) currentTime = true ->
  Js.lt currentTime (TimeBlock.endTime B) = true ->
  let f := completeBlock currentTime taskId in
  exists (r : DayData.t) (done buffer : TimeBlock.t),
    handleToggleTask days todayStr todayStr currentTime taskId prev !! todayStr
    = Some r /\
    DayData.schedule r = (flat_map f l1 ++ done :: buffer :: flat_map f l2)%list /\
    (TimeBlock.id done = TimeBlock.id B /\
     TimeBlock.startTime done = TimeBlock.startTime B /\
     TimeBlock.endTime done = currentTime /\
     TimeBlock.isCompleted done = true /\
     TimeBlock.taskId done = TimeBlock.taskId B /\
     TimeBlock.type done = TimeBlock.type B /\
     TimeBlock.energyLevel done = TimeBlock.energyLevel B /\
     TimeBlock.priority done = TimeBlock.priority B /\
     TimeBlock.domain done = TimeBlock.domain B) /\
    buffer = TimeBlock.mk (TimeBlock.id B ++ "-buffer") currentTime
               (TimeBlock.endTime B) None "Efficiency Bonus" break false
               (Some EnergyLevel.low) None (Some Routine) /\
    (forall b, TimeBlock.taskId b <> Some taskId -> f b = [b]) /\
    length (DayData.schedule r)
    = length (DayData.schedule pre)
      + length (List.filter
                  (fun b => TimeBlock.hasTask b taskId
                            && (Js.gt currentTime (TimeBlock.startTime b)
                                && Js.lt currentTime (TimeBlock.endTime b)))
                  (DayData.schedule pre)).
Proof.
  intros pre Hsome Hopen Hsched Hid Hs He f.
  exists (DayData.mk
            (map (fun t => if String.eqb (Task.id t) taskId
                           then Task.withCompleted t (negb (Task.completed t))
                           else t) (DayData.tasks pre))
            (flat_map f (DayData.schedule pre))
            (DayData.explanation pre) (DayData.date pre)
            (DayData.distractions pre) (DayData.previousVersion pre)),
         (completedBlock currentTime B), (bufferBlock currentTime B).
  split; [apply (toggle_completes_record days todayStr currentTime taskId prev Hsome Hopen)|].
  cbn [DayData.schedule]. split.
  - rewrite Hsched, flat_map_app. cbn [flat_map]. unfold f at 2.
    rewrite (completeBlock_in_progress _ _ _ Hid Hs He). reflexivity.
  - split; [cbn; repeat split|]. split; [reflexivity|]. split.
    + intros b. apply completeBlock_other.
    + apply length_flat_map_completeBlock.
Qed.

(** C5 (amended). When an in-progress block is split on completion, the
    label of the completed block is the original label followed by
    " (Done)", whether or not the original label already contains it; it is
    never the original label unchanged. *)
Theorem toggle_appends_done days todayStr currentTime taskId prev
    (l1 l2 : list TimeBlock.t) (B : TimeBlock.t) :
  let pre := getDayData days todayStr in
  (exists t, In t (DayData.tasks pre) /\ Task.id t = taskId) ->
  (forall t, In t (DayData.tasks pre) -> Task.id t = taskId ->
             Task.completed t = false) ->
  DayData.schedule pre = (l1 ++ B :: l2)%list ->
  TimeBlock.taskId B = Some taskId ->
  Js.lt (TimeBlock.startTime B) currentTime = true ->
  Js.lt currentTime (TimeBlock.endTime B) = true ->
  let f := completeBlock currentTime taskId in
  exists (r : DayData.t) (done buffer : TimeBlock.t),
    handleToggleTask days todayStr todayStr currentTime taskId prev !! todayStr
    = Some r /\
    DayData.schedule r = (flat_map f l1 ++ done :: buffer :: flat_map f l2)%list /\
    TimeBlock.id done = TimeBlock.id B /\
    TimeBlock.label done = TimeBlock.label B ++ " (Done)" /\
    TimeBlock.label done <> TimeBlock.label B.
Proof.
  intros pre Hsome Hopen Hsched Hid Hs He f.
  eexists _, (completedBlock currentTime B), (bufferBlock currentTime B).
  split; [apply (toggle_completes_record days todayStr currentTime taskId prev Hsome Hopen)|].
  cbn [DayData.schedule]. split.
  - fold pre. rewrite Hsched, flat_map_app. cbn [flat_map].
    rewrite (completeBlock_in_progress _ _ _ Hid Hs He). reflexivity.
  - cbn [completedBlock TimeBlock.id TimeBlock.label]. repeat split.
    apply append_suffix_neq. discriminate.
Qed.

(** C8 (amended). Toggling a task id that no task of the date carries
    raises no error and writes back the task list as it was, and the
    schedule with [isCompleted] cleared on the blocks that reference that
    id; the schedule is written back unchanged when no block referencing
    the id is marked completed.  The other fields keep their values. *)
Theorem toggle_absent_task days selectedDate todayStr currentTime taskId prev :
  let pre := getDayData days selectedDate in
  (forall t, In t (DayData.tasks pre) -> Task.id t <> taskId) ->
  exists r : DayData.t,
    handleToggleTask days selectedDate todayStr currentTime taskId prev
      !! selectedDate = Some r /\
    DayData.tasks r = DayData.tasks pre /\
    DayData.schedule r = map (markBlock taskId false) (DayData.schedule pre) /\
    ((forall b, In b (DayData.schedule pre) ->
                TimeBlock.taskId b = Some taskId -> TimeBlock.isCompleted b = false) ->
     DayData.schedule r = DayData.schedule pre) /\
    DayData.explanation r = DayData.explanation pre /\
    DayData.distractions r = DayData.distractions pre /\
    DayData.previousVersion r = DayData.previousVersion pre.
Proof.
  intros pre Habs. eexists. split; [apply (toggle_absent_record _ _ _ _ _ _ Habs)|].
  cbn [DayData.tasks DayData.schedule DayData.explanation DayData.distractions
       DayData.previousVersion].
  repeat split. intros Hclear.
  etransitivity; [|apply List.map_id].
  apply List.map_ext_in. intros b Hb. apply markBlock_false_id.
  intros Hhas. apply (Hclear b Hb). apply hasTask_iff. exact Hhas.
Qed.


End Toggle.

(** ** The properties on the sample day *)

Section OnTheSampleDay.

Import Sample.

Example getMinutes_0930 : getMinutes "09:30" = Some 570%N.
Proof. reflexivity. Qed.

Example getMinutes_no_colon : getMinutes "0930" = None.
Proof. reflexivity. Qed.

Example getCurrentTimeStr_0905 : getCurrentTimeStr 9 5 = "09:05".
Proof. reflexivity. Qed.

Example includes_marker : Js.includes "Write report (Partial)" "(Partial)" = true.
Proof. reflexivity. Qed.

(** The partition of the sample day at 09:45. *)
Example preserveHistory_sample :
  preserveHistory "09:45" [blockDone; blockX; blockLater]
  = [blockDone;
     TimeBlock.mk "b2-truncated" "09:00" "09:45" (Some "X")
                  "Write report (Partial)" work false
                  (Some EnergyLevel.high) None (Some Academic)].
Proof. reflexivity. Qed.

(** A block that ends before it starts is kept by the first test of the
    partition, although it starts after the current time. *)
Example preserveHistory_reversed_block :
  preserveHistory "09:45"
    [TimeBlock.mk "b9" "10:00" "09:00" None "Reversed" work false None None None]
  = [TimeBlock.mk "b9" "10:00" "09:00" None "Reversed" work false None None None].
Proof. reflexivity. Qed.

(** A label that carries the marker without the space is not suffixed. *)
Example truncated_marker_without_space :
  TimeBlock.label
    (truncated "09:45"
       (TimeBlock.mk "b2" "09:00" "10:30" None "Report(Partial)" work false
                     None None None))
  = "Report(Partial)".
Proof. reflexivity. Qed.

(** The gateway's blocks are linked by title and keep the order of the
    reply, also when it is not the order of time. *)
Example replan_sample_schedule :
  map (fun b => (TimeBlock.id b, TimeBlock.startTime b, TimeBlock.taskId b))
      (DayData.schedule
         (getDayData
            (nextDays days
               (handleReplan reply clock clock days today today "09:45" None days))
            today))
  = [("b1", "08:00", None);
     ("b2-truncated", "09:00", Some "X");
     ("replan-block-1768467600000-0", "10:00", Some "X");
     ("replan-block-1768467600000-1", "09:45", None)].
Proof. vm_compute. reflexivity. Qed.

(** A handler that resumes after its [await] still reads the store of the
    render it started in: distractions noted while the gateway call was in
    flight are written back as they were at the start of the replan. *)
Example replan_writes_back_render_state :
  let inFlight := handleUpdateDistractions days today ["call back"] days in
  DayData.distractions (getDayData inFlight today) = Some ["call back"] /\
  DayData.distractions
    (getDayData
       (nextDays inFlight
          (handleReplan noReply clock clock days today today "09:45" None inFlight))
       today)
  = Some ["check mail"].
Proof. split; vm_compute; reflexivity. Qed.

(** A replan asked for another date than today only alerts. *)
Example replan_other_date_alerts :
  handleReplan noReply clock clock days "2026-01-16" today "09:45" None days
  = Alert "You can only adapt the schedule for Today.".
Proof. reflexivity. Qed.

End OnTheSampleDay.

(** ** Witnesses and counterexamples *)

Lemma failed_replan_record_witness :
  let pre := getDayData Sample.days Sample.today in
  Sample.noReply (DayData.tasks pre) "09:45" "23:59" (contextOrDefault None) = None /\
  exists r : DayData.t,
    nextDays Sample.days
      (handleReplan Sample.noReply Sample.clock Sample.clock Sample.days
         Sample.today Sample.today "09:45" None Sample.days)
      !! Sample.today = Some r /\
    DayData.tasks r = DayData.tasks pre /\
    DayData.distractions r = DayData.distractions pre /\
    DayData.date r = DayData.date pre /\
    DayData.schedule r = preserveHistory "09:45" (DayData.schedule pre) /\
    DayData.previousVersion r = Some (snapshotOf pre) /\
    DayData.explanation r = "Replan failed. Please try again.".
Proof.
  split; [reflexivity|].
  apply (failed_replan_record Sample.noReply Sample.clock Sample.clock
           Sample.days Sample.today "09:45" None Sample.days).
  reflexivity.
Defined.

(** C1, as stated, fails: after a failed replan at 09:45 the schedule of the
    sample day has lost its later block and has its block in progress
    truncated, and [previousVersion] is set. *)
Lemma failed_replan_changes_record :
  let pre := getDayData Sample.days Sample.today in
  let post :=
    getDayData
      (nextDays Sample.days
         (handleReplan Sample.noReply Sample.clock Sample.clock Sample.days
            Sample.today Sample.today "09:45" None Sample.days))
      Sample.today in
  Sample.noReply (DayData.tasks pre) "09:45" "23:59" (contextOrDefault None) = None /\
  ~ (DayData.tasks post = DayData.tasks pre /\
     DayData.schedule post = DayData.schedule pre /\
     DayData.distractions post = DayData.distractions pre /\
     DayData.previousVersion post = DayData.previousVersion pre) /\
  DayData.schedule post <> DayData.schedule pre /\
  DayData.previousVersion post <> DayData.previousVersion pre.
Proof.
  cbv zeta. split; [reflexivity|].
  split; [intros (_ & _ & _ & H); vm_compute in H; discriminate H|].
  split; intros H; vm_compute in H; discriminate H.
Qed.

Lemma failed_replan_keeps_tasks_witness :
  let pre := getDayData Sample.days Sample.today in
  Sample.noReply (DayData.tasks pre) "09:45" "23:59" (contextOrDefault None) = None /\
  ReplanResult.schedule
    (adaptiveReplan Sample.noReply Sample.clock Sample.clock
       (DayData.tasks pre) "09:45" "23:59" (contextOrDefault None)) = [] /\
  exists r : DayData.t,
    nextDays Sample.days
      (handleReplan Sample.noReply Sample.clock Sample.clock Sample.days
         Sample.today Sample.today "09:45" None Sample.days)
      !! Sample.today = Some r /\
    DayData.tasks r = DayData.tasks pre /\
    DayData.schedule r
    = (preserveHistory "09:45" (DayData.schedule pre) ++ [])%list /\
    forall b, In b (DayData.schedule r) ->
      exists b0, In b0 (DayData.schedule pre) /\
                 (b = b0 \/ b = truncated "09:45" b0).
Proof.
  split; [reflexivity|].
  apply (failed_replan_keeps_tasks Sample.noReply Sample.clock Sample.clock
           Sample.days Sample.today "09:45" None Sample.days).
  reflexivity.
Defined.


Lemma toggle_splits_in_progress_witness :
  let pre := getDayData Sample.days Sample.today in
  (exists t, In t (DayData.tasks pre) /\ Task.id t = "X") /\
  (forall t, In t (DayData.tasks pre) -> Task.id t = "X" ->
             Task.completed t = false) /\
  DayData.schedule pre
  = ([Sample.blockDone] ++ Sample.blockX :: [Sample.blockLater])%list /\
  Js.lt "09:00" "09:30" = true /\ Js.lt "09:30" "10:30" = true /\
  exists (r : DayData.t) (done buffer : TimeBlock.t),
    handleToggleTask Sample.days Sample.today Sample.today "09:30" "X" Sample.days
      !! Sample.today = Some r /\
    DayData.schedule r = [Sample.blockDone; done; buffer; Sample.blockLater] /\
    TimeBlock.id done = "b2" /\
    TimeBlock.startTime done = "09:00" /\
    TimeBlock.endTime done = "09:30" /\
    TimeBlock.isCompleted done = true /\
    buffer = TimeBlock.mk "b2-buffer" "09:30" "10:30" None "Efficiency Bonus"
               break false (Some EnergyLevel.low) None (Some Routine) /\
    length (DayData.schedule r) = 4.
Proof.
  cbv zeta.
  assert (Hsome : exists t, In t (DayData.tasks (getDayData Sample.days Sample.today))
                            /\ Task.id t = "X")
    by (exists Sample.taskX; split; [left; reflexivity | reflexivity]).
  assert (Hopen : forall t, In t (DayData.tasks (getDayData Sample.days Sample.today)) ->
                            Task.id t = "X" -> Task.completed t = false)
    by (intros t [<- | []] _; reflexivity).
  split; [exact Hsome|]. split; [exact Hopen|].
  split; [reflexivity|]. split; [reflexivity|]. split; [reflexivity|].
  destruct (toggle_splits_in_progress Sample.days Sample.today "09:30" "X" Sample.days
              [Sample.blockDone] [Sample.blockLater] Sample.blockX
              Hsome Hopen eq_refl eq_refl eq_refl eq_refl)
    as (r & done & buffer & Hr & Hs & (Hid & Hst & He & Hc & _) & Hb & _ & Hlen).
  exists r, done, buffer.
  split; [exact Hr|]. split; [exact Hs|].
  split; [exact Hid|]. split; [exact Hst|]. split; [exact He|]. split; [exact Hc|].
  split; [exact Hb|]. rewrite Hlen. reflexivity.
Defined.

Lemma toggle_appends_done_witness :
  let pre := getDayData Sample.days Sample.today in
  (exists t, In t (DayData.tasks pre) /\ Task.id t = "X") /\
  (forall t, In t (DayData.tasks pre) -> Task.id t = "X" ->
             Task.completed t = false) /\
  DayData.schedule pre
  = ([Sample.blockDone] ++ Sample.blockX :: [Sample.blockLater])%list /\
  Js.lt "09:00" "09:30" = true /\ Js.lt "09:30" "10:30" = true /\
  exists (r : DayData.t) (done buffer : TimeBlock.t),
    handleToggleTask Sample.days Sample.today Sample.today "09:30" "X" Sample.days
      !! Sample.today = Some r /\
    DayData.schedule r = [Sample.blockDone; done; buffer; Sample.blockLater] /\
    TimeBlock.id done = "b2" /\
    TimeBlock.label done = "Write report (Done)" /\
    TimeBlock.label done <> "Write report".
Proof.
  cbv zeta.
  assert (Hsome : exists t, In t (DayData.tasks (getDayData Sample.days Sample.today))
                            /\ Task.id t = "X")
    by (exists Sample.taskX; split; [left; reflexivity | reflexivity]).
  assert (Hopen : forall t, In t (DayData.tasks (getDayData Sample.days Sample.today)) ->
                            Task.id t = "X" -> Task.completed t = false)
    by (intros t [<- | []] _; reflexivity).
  split; [exact Hsome|]. split; [exact Hopen|].
  split; [reflexivity|]. split; [reflexivity|]. split; [reflexivity|].
  apply (toggle_appends_done Sample.days Sample.today "09:30" "X" Sample.days
           [Sample.blockDone] [Sample.blockLater] Sample.blockX
           Hsome Hopen eq_refl eq_refl eq_refl eq_refl).
Defined.

(** C5, as stated, fails: a block in progress whose label already ends in
    " (Done)" gets the suffix a second time. *)
Lemma done_label_suffixed_again :
  let post :=
    getDayData
      (handleToggleTask Sample.daysRelabelled Sample.today Sample.today "09:30" "X"
         Sample.daysRelabelled)
      Sample.today in
  Js.includes (TimeBlock.label Sample.blockXDone) " (Done)" = true /\
  exists done buffer : TimeBlock.t,
    DayData.schedule post = [done; buffer] /\
    TimeBlock.id done = TimeBlock.id Sample.blockXDone /\
    TimeBlock.label done = "Write report (Done) (Done)" /\
    TimeBlock.label done <> TimeBlock.label Sample.blockXDone.
Proof.
  cbv zeta. split; [reflexivity|].
  eexists _, _. split; [vm_compute; reflexivity|].
  split; [reflexivity|]. split; [reflexivity|]. discriminate.
Qed.

Lemma toggle_absent_task_witness :
  let pre := getDayData Sample.daysOrphan Sample.today in
  (forall t, In t (DayData.tasks pre) -> Task.id t <> "gone") /\
  exists r : DayData.t,
    handleToggleTask Sample.daysOrphan Sample.today Sample.today "09:30" "gone"
      Sample.daysOrphan !! Sample.today = Some r /\
    DayData.tasks r = DayData.tasks pre /\
    DayData.schedule r = map (markBlock "gone" false) (DayData.schedule pre) /\
    ((forall b, In b (DayData.schedule pre) ->
                TimeBlock.taskId b = Some "gone" -> TimeBlock.isCompleted b = false) ->
     DayData.schedule r = DayData.schedule pre) /\
    DayData.explanation r = DayData.explanation pre /\
    DayData.distractions r = DayData.distractions pre /\
    DayData.previousVersion r = DayData.previousVersion pre.
Proof.
  cbv zeta.
  assert (Habs : forall t, In t (DayData.tasks (getDayData Sample.daysOrphan Sample.today)) ->
                           Task.id t <> "gone")
    by (intros t [<- | []]; discriminate).
  split; [exact Habs|].
  apply (toggle_absent_task Sample.daysOrphan Sample.today Sample.today "09:30" "gone"
           Sample.daysOrphan Habs).
Defined.

(** C8, as stated, fails: the toggle of an id that no task carries clears
    [isCompleted] on the completed block that still references it. *)
Lemma toggle_absent_task_clears_block :
  let pre := getDayData Sample.daysOrphan Sample.today in
  let post :=
    getDayData
      (handleToggleTask Sample.daysOrphan Sample.today Sample.today "09:30" "gone"
         Sample.daysOrphan)
      Sample.today in
  (forall t, In t (DayData.tasks pre) -> Task.id t <> "gone") /\
  DayData.tasks post = DayData.tasks pre /\
  DayData.schedule post <> DayData.schedule pre /\
  map TimeBlock.isCompleted (DayData.schedule pre) = [true; false] /\
  map TimeBlock.isCompleted (DayData.schedule post) = [false; false].
Proof.
  cbv zeta. split; [intros t [<- | []]; discriminate|].
  split; [vm_compute; reflexivity|].
  split; [intros H; vm_compute in H; discriminate H|].
  split; vm_compute; reflexivity.
Qed.


(** After a failed replan on the sample day, the undo gives the day back. *)
Lemma replan_always_snapshots_witness :
  let days1 :=
    nextDays Sample.days
      (handleReplan Sample.noReply Sample.clock Sample.clock Sample.days
         Sample.today Sample.today "09:45" None Sample.days) in
  Sample.noReply [Sample.taskX] "09:45" "23:59" (contextOrDefault None) = None /\
  (exists r1 : DayData.t,
     days1 !! Sample.today = Some r1 /\
     DayData.schedule r1
     = preserveHistory "09:45" [Sample.blockDone; Sample.blockX; Sample.blockLater]) /\
  handleUndo days1 Sample.today days1 !! Sample.today = Some Sample.day.
Proof.
  cbv zeta. split; [reflexivity|].
  destruct (replan_always_snapshots Sample.noReply Sample.clock Sample.clock
              Sample.days Sample.today "09:45" None Sample.days) as (_ & Hfail).
  destruct (Hfail eq_refl) as (Hpast & Hundo).
  split; [exact Hpast | exact Hundo].
Defined.

(** ** The clock string *)

Section Clock.

Local Open Scope N_scope.

Lemma In_below (k : nat) (n : N) :
  n < N.of_nat k -> In n (map N.of_nat (seq 0 k)).
Proof.
  intros Hn. apply in_map_iff. exists (N.to_nat n).
  split; [apply N2Nat.id | apply in_seq; lia].
Qed.

(** X1. The string [getCurrentTimeStr] builds from a clock reading is a
    well-formed time, and [getMinutes] reads the clock back from it. *)
Lemma getCurrentTimeStr_wellFormed (hours minutes : N) :
  hours < 24 -> minutes < 60 ->
  wellFormedTime (getCurrentTimeStr hours minutes) = true /\
  getMinutes (getCurrentTimeStr hours minutes) = Some (hours * 60 + minutes).
Proof.
  intros Hh Hm.
  assert (Hall :
    forallb (fun h =>
      forallb (fun m =>
        wellFormedTime (getCurrentTimeStr h m)
        && match getMinutes (getCurrentTimeStr h m) with
           | Some a => a =? h * 60 + m
           | None => false
           end)
        (map N.of_nat (seq 0 60)))
      (map N.of_nat (seq 0 24)) = true) by (vm_compute; reflexivity).
  rewrite forallb_forall in Hall.
  specialize (Hall hours (In_below 24 hours Hh)).
  rewrite forallb_forall in Hall.
  specialize (Hall minutes (In_below 60 minutes Hm)).
  apply andb_true_iff in Hall. destruct Hall as [Hwf Hmin].
  split; [exact Hwf|].
  destruct (getMinutes (getCurrentTimeStr hours minutes)) as [a|]; [|discriminate].
  apply N.eqb_eq in Hmin. congruence.
Qed.

End Clock.

(** ** Decimal numerals in identifiers and date keys *)

Section Numerals.

Local Abbreviation digits s :=
  (Forall (fun c => Js.isDigit c = true) (list_ascii_of_string s)).

Lemma string_of_uint_digits (d : Decimal.uint) :
  digits (NilEmpty.string_of_uint d).
Proof.
  induction d; cbn [NilEmpty.string_of_uint list_ascii_of_string];
    constructor; auto.
Qed.

(** The numeral of a number is a non-empty string of digits. *)
Lemma ofN_digits (n : N) : digits (Js.ofN n).
Proof.
  unfold Js.ofN, NilZero.string_of_uint.
  destruct (N.to_uint n) eqn:E; try apply string_of_uint_digits.
  repeat constructor.
Qed.

Lemma ofN_nonempty (n : N) : Js.ofN n <> "".
Proof.
  unfold Js.ofN, NilZero.string_of_uint.
  destruct (N.to_uint n); discriminate.
Qed.

Lemma to_uint_nonnil (n : N) : N.to_uint n <> Decimal.Nil.
Proof.
  destruct n; [discriminate | apply DecimalPos.Unsigned.to_uint_nonnil].
Qed.

(** Two numbers with the same numeral are equal. *)
Lemma ofN_inj (a b : N) : Js.ofN a = Js.ofN b -> a = b.
Proof.
  unfold Js.ofN. intros E.
  apply DecimalN.Unsigned.to_uint_inj.
  pose proof (NilZero.usu _ (to_uint_nonnil a)) as Ha.
  pose proof (NilZero.usu _ (to_uint_nonnil b)) as Hb.
  rewrite E in Ha. congruence.
Qed.

(** Two strings of digits followed by a hyphen: the hyphen is found at the
    same place in both. *)
Lemma digits_hyphen_split (a b r1 r2 : string) :
  digits a -> digits b ->
  a ++ String "-" r1 = b ++ String "-" r2 -> a = b /\ r1 = r2.
Proof.
  revert b. induction a as [|c a IH]; intros [|d b] Ha Hb E; cbn in *.
  - injection E as ->. split; reflexivity.
  - injection E as <- _. inversion Hb as [|? ? Hd _]. discriminate Hd.
  - injection E as -> _. inversion Ha as [|? ? Hc _]. discriminate Hc.
  - injection E as -> E. inversion Ha; inversion Hb; subst.
    destruct (IH b) as [-> ->]; auto.
Qed.

Lemma append_inj_l (p a b : string) : p ++ a = p ++ b -> a = b.
Proof. induction p as [|c p IH]; cbn; [auto | intros [= E]; auto]. Qed.

(** An identifier [prefix-<clock>-<index>] determines its index. *)
Lemma stamped_id_inj (p : string) (t1 t2 i j : N) :
  p ++ Js.ofN t1 ++ "-" ++ Js.ofN i = p ++ Js.ofN t2 ++ "-" ++ Js.ofN j ->
  t1 = t2 /\ i = j.
Proof.
  intros E. apply append_inj_l in E.
  apply digits_hyphen_split in E; try apply ofN_digits.
  destruct E as [E1 E2]. split; apply ofN_inj; assumption.
Qed.

(** The identifiers a gateway gives to the elements of one reply are
    pairwise distinct, whatever the clock does. *)
Lemma stamped_ids_NoDup {A B : Type} (p : string) (clock : nat -> N)
    (f : nat -> A -> B) (id : B -> string) (l : list A) :
  (forall i x, id (f i x) = p ++ Js.ofN (clock i) ++ "-" ++ Js.ofN (N.of_nat i)) ->
  NoDup (id <$> imap f l).
Proof.
  intros Hid. apply NoDup_alt. intros i j s.
  rewrite !list_lookup_fmap, !list_lookup_imap.
  destruct (l !! i) as [x|]; [|discriminate].
  destruct (l !! j) as [y|]; [|discriminate].
  cbn. rewrite !Hid. intros [= <-] [= E].
  apply stamped_id_inj in E. destruct E as [_ E]. lia.
Qed.

Local Open Scope N_scope.

(** The two-digit fields of a date key determine the month and the day. *)
Lemma padStart2_inj (a b : N) :
  a < 100 -> b < 100 ->
  Js.padStart2 (Js.ofN a) = Js.padStart2 (Js.ofN b) -> a = b.
Proof.
  intros Ha Hb E.
  assert (Hall :
    forallb (fun x =>
      forallb (fun y =>
        implb (String.eqb (Js.padStart2 (Js.ofN x)) (Js.padStart2 (Js.ofN y)))
              (x =? y))
        (map N.of_nat (seq 0 100)))
      (map N.of_nat (seq 0 100)) = true) by (vm_compute; reflexivity).
  rewrite forallb_forall in Hall.
  specialize (Hall a (In_below 100 a Ha)).
  rewrite forallb_forall in Hall.
  specialize (Hall b (In_below 100 b Hb)).
  apply String.eqb_eq in E. rewrite E in Hall. apply N.eqb_eq. exact Hall.
Qed.

Lemma padStart2_digits (n : N) : digits (Js.padStart2 (Js.ofN n)).
Proof.
  pose proof (ofN_digits n) as Hd. unfold Js.padStart2.
  destruct (String.length (Js.ofN n)) as [|[|k]]; [| |exact Hd];
    cbn [append list_ascii_of_string]; repeat constructor; exact Hd.
Qed.

(** X2. Two calendar dates with the same key are the same date: the keys
    of the day store do not collide. *)
Theorem getTodayStr_inj (y1 m1 d1 y2 m2 d2 : N) :
  m1 < 12 -> d1 <= 31 -> m2 < 12 -> d2 <= 31 ->
  getTodayStr y1 m1 d1 = getTodayStr y2 m2 d2 ->
  y1 = y2 /\ m1 = m2 /\ d1 = d2.
Proof.
  intros Hm1 Hd1 Hm2 Hd2. unfold getTodayStr. intros E.
  apply digits_hyphen_split in E; try apply ofN_digits.
  destruct E as [Ey E]. apply ofN_inj in Ey.
  apply digits_hyphen_split in E; try apply padStart2_digits.
  destruct E as [Em Ed].
  apply padStart2_inj in Em; [|lia|lia].
  apply padStart2_inj in Ed; [|lia|lia].
  repeat split; lia.
Qed.

Lemma getTodayStr_inj_witness :
  getTodayStr 2026 0 15 = "2026-01-15" /\
  (getTodayStr 2026 0 15 = getTodayStr 2026 0 15 ->
   2026 = 2026 /\ 0 = 0 /\ 15 = 15).
Proof.
  split; [reflexivity|].
  apply (getTodayStr_inj 2026 0 15 2026 0 15); lia.
Defined.

End Numerals.

(** ** What the gateways return *)

Section GatewayResults.

Variable generateContent :
  list Task.t -> string -> string -> string -> option ReplanData.t.
Variable planContent :
  list Task.t -> string -> string -> string -> option PlanData.t.
Variable chatContent : list ChatMessage.t -> option ReplanData.t.
Variable dateNowTask : nat -> N.
Variable dateNowBlock : nat -> N.

Local Abbreviation replanResult :=
  (adaptiveReplan generateContent dateNowTask dateNowBlock).
Local Abbreviation planResult := (generateDailyPlan planContent dateNowBlock).
Local Abbreviation chatResult :=
  (generateScheduleFromChat chatContent dateNowTask dateNowBlock).

Lemma truthy_nonempty (s : string) : Js.truthy s = true <-> s <> "".
Proof. destruct s; cbn; split; congruence. Qed.

(** Whatever the reply, [adaptiveReplan] passes the end of day it was
    given when that is 23:59. *)
Lemma adaptiveReplan_eq (tasks : list Task.t) (dayStartTime context : string) :
  replanResult tasks dayStartTime "23:59" context
  = match generateContent tasks dayStartTime "23:59" context with
    | Some data =>
        let finalTasks := imap (finalTask dateNowTask) (ReplanData.tasks data) in
        ReplanResult.mk finalTasks
          (imap (finalBlock dateNowBlock finalTasks) (ReplanData.schedule data))
          (ReplanData.explanation data)
    | None => ReplanResult.mk tasks [] "Replan failed. Please try again."
    end.
Proof.
  unfold adaptiveReplan. cbn [String.eqb Ascii.eqb Bool.eqb negb andb].
  rewrite andb_false_r. reflexivity.
Qed.

(** X26. The window [adaptiveReplan] sends to the model is never turned
    round: the end of day it sends is the one it was given or 23:59, and
    the time now is before it unless it is 23:59. *)
Lemma adaptiveReplan_request (tasks : list Task.t)
    (dayStartTime dayEndTime context : string) :
  exists safeEndTime,
    replanResult tasks dayStartTime dayEndTime context
    = match generateContent tasks dayStartTime safeEndTime context with
      | Some data =>
          let finalTasks := imap (finalTask dateNowTask) (ReplanData.tasks data) in
          ReplanResult.mk finalTasks
            (imap (finalBlock dateNowBlock finalTasks) (ReplanData.schedule data))
            (ReplanData.explanation data)
      | None => ReplanResult.mk tasks [] "Replan failed. Please try again."
      end /\
    (safeEndTime = dayEndTime \/ safeEndTime = "23:59") /\
    (Js.lt dayStartTime safeEndTime = true \/ safeEndTime = "23:59").
Proof.
  unfold adaptiveReplan.
  destruct (Js.ge dayStartTime dayEndTime) eqn:Hge;
    destruct (String.eqb dayEndTime "23:59") eqn:Heq; cbn [negb andb].
  - exists dayEndTime. apply String.eqb_eq in Heq. auto.
  - exists "23:59". auto.
  - exists dayEndTime. apply String.eqb_eq in Heq. auto.
  - exists dayEndTime. split; [reflexivity|]. split; [auto|]. left.
    unfold Js.ge, String.leb in Hge. unfold Js.lt, String.ltb.
    rewrite (String.compare_antisym dayEndTime dayStartTime) in Hge.
    destruct (String.compare dayStartTime dayEndTime); cbn in *; congruence.
Qed.

(** X3. The tasks of a successful replan are the tasks of the reply, in
    the order of the reply: each has a non-empty id, a task that came with
    an id is returned as it is, and a task without one only gets an id. *)
Theorem adaptiveReplan_tasks (tasks : list Task.t) (dayStartTime context : string)
    (data : ReplanData.t) :
  generateContent tasks dayStartTime "23:59" context = Some data ->
  let result := replanResult tasks dayStartTime "23:59" context in
  length (ReplanResult.tasks result) = length (ReplanData.tasks data) /\
  forall (i : nat) (t' : Task.t),
    ReplanResult.tasks result !! i = Some t' ->
    exists t : Task.t,
      ReplanData.tasks data !! i = Some t /\
      Task.id t' <> "" /\
      (Task.id t <> "" -> t' = t) /\
      t' = Task.withId t (Task.id t').
Proof.
  intros Hok result. unfold result. rewrite adaptiveReplan_eq, Hok.
  cbn [ReplanResult.tasks]. split; [apply length_imap|].
  intros i t'. rewrite list_lookup_imap.
  destruct (ReplanData.tasks data !! i) as [t|]; [|discriminate].
  cbn. intros [= <-]. exists t. split; [reflexivity|].
  unfold finalTask. destruct (Js.truthy (Task.id t)) eqn:Hid.
  - apply truthy_nonempty in Hid. destruct t. cbn in *. repeat split; auto.
  - destruct t as [id ? ? ? ? ? ? ? ?]. cbn in *.
    destruct id; [|discriminate]. repeat split; [discriminate | congruence].
Qed.

(** X4. Whatever the window and whatever the gateway answers, the blocks
    [adaptiveReplan] returns have pairwise distinct ids, are not completed,
    carry a domain, and reference a task by a non-empty id or not at
    all. *)
Theorem adaptiveReplan_blocks (tasks : list Task.t)
    (dayStartTime dayEndTime context : string) :
  let schedule :=
    ReplanResult.schedule (replanResult tasks dayStartTime dayEndTime context) in
  NoDup (TimeBlock.id <$> schedule) /\
  forall b, In b schedule ->
    TimeBlock.isCompleted b = false /\
    TimeBlock.domain b <> None /\
    TimeBlock.taskId b <> Some "".
Proof.
  cbv zeta. unfold adaptiveReplan.
  destruct (generateContent tasks dayStartTime _ context) as [data|];
    cbn [ReplanResult.schedule].
  - split.
    + apply (stamped_ids_NoDup "replan-block-" dateNowBlock). reflexivity.
    + intros b Hb. apply list_elem_of_In, elem_of_lookup_imap in Hb.
      destruct Hb as (i & raw & -> & _). cbn.
      repeat split; [discriminate|].
      destruct (linkTaskId _ raw) as [[|c s]|]; cbn; discriminate.
  - split; [constructor | intros b []].
Qed.

(** X5. How a block of a successful replan is linked: an id the reply
    supplies is kept when a returned task carries it; a block that is not
    of type work is never linked by title; a work block some returned task
    matches by title references a returned task. *)
Theorem adaptiveReplan_linking (tasks : list Task.t) (dayStartTime context : string)
    (data : ReplanData.t) (i : nat) (raw : RawBlock.t) :
  generateContent tasks dayStartTime "23:59" context = Some data ->
  ReplanData.schedule data !! i = Some raw ->
  let result := replanResult tasks dayStartTime "23:59" context in
  exists b : TimeBlock.t,
    ReplanResult.schedule result !! i = Some b /\
    (forall x t, RawBlock.taskId raw = Some x ->
       In t (ReplanResult.tasks result) -> Task.id t = x ->
       TimeBlock.taskId b = Some x) /\
    (RawBlock.type raw <> work ->
       TimeBlock.taskId b
       = if truthyId (RawBlock.taskId raw) then RawBlock.taskId raw else None) /\
    (RawBlock.type raw = work ->
     (exists t, In t (ReplanResult.tasks result) /\ titleMatches raw t = true) ->
       exists t, In t (ReplanResult.tasks result) /\
                 TimeBlock.taskId b = Some (Task.id t)).
Proof.
  intros Hok Hraw result. unfold result. rewrite adaptiveReplan_eq, Hok.
  cbn [ReplanResult.schedule ReplanResult.tasks].
  set (finalTasks := imap (finalTask dateNowTask) (ReplanData.tasks data)).
  assert (Hids : forall t, In t finalTasks -> Js.truthy (Task.id t) = true).
  { intros t Ht. apply list_elem_of_In, elem_of_lookup_imap in Ht.
    destruct Ht as (j & t0 & -> & _). unfold finalTask. cbn.
    destruct (Js.truthy (Task.id t0)) eqn:E; [exact E | reflexivity]. }
  eexists. split; [rewrite list_lookup_imap, Hraw; reflexivity|].
  cbn [finalBlock TimeBlock.taskId]. unfold linkTaskId.
  split; [|split].
  - intros x t Hx Ht Hid. rewrite Hx. cbn [truthyId].
    assert (Hex : existsb (fun t0 => String.eqb (Task.id t0) x) finalTasks = true).
    { apply existsb_exists. exists t. split; [exact Ht | apply String.eqb_eq, Hid]. }
    assert (Htr : Js.truthy x = true) by (rewrite <- Hid; apply Hids, Ht).
    rewrite Hex, Htr. cbn. rewrite Htr. reflexivity.
  - intros Hty. assert (isWork (RawBlock.type raw) = false) as ->
      by (destruct (RawBlock.type raw) eqn:E; try reflexivity; contradiction).
    rewrite andb_false_r. reflexivity.
  - intros Hty (t & Ht & Hmatch). rewrite Hty. cbn [isWork]. rewrite andb_true_r.
    destruct (negb (truthyId (RawBlock.taskId raw)) || negb _) eqn:Hcond.
    + destruct (find (titleMatches raw) finalTasks) as [m|] eqn:Hfind.
      * apply find_some in Hfind. destruct Hfind as [Hm _].
        exists m. split; [exact Hm|]. cbn. rewrite (Hids m Hm). reflexivity.
      * exfalso. apply (find_none _ _ Hfind) in Ht. congruence.
    + apply orb_false_iff in Hcond. destruct Hcond as [Htr Hex].
      apply negb_false_iff in Htr, Hex. rewrite Htr.
      destruct (RawBlock.taskId raw) as [x|]; [|discriminate].
      apply existsb_exists in Hex. destruct Hex as (t0 & Ht0 & Heq).
      apply String.eqb_eq in Heq. exists t0. split; [exact Ht0 | congruence].
Qed.

End GatewayResults.

Section PlanResults.

Variable planContent :
  list Task.t -> string -> string -> string -> option PlanData.t.
Variable chatContent : list ChatMessage.t -> option ReplanData.t.
Variable dateNowTask : nat -> N.
Variable dateNowBlock : nat -> N.

Local Abbreviation planResult := (generateDailyPlan planContent dateNowBlock).
Local Abbreviation chatResult :=
  (generateScheduleFromChat chatContent dateNowTask dateNowBlock).

(** X6. [generateDailyPlan] returns an empty schedule with the failure
    message when the call fails; otherwise one block for each block of the
    reply, in the order of the reply, with its times and label, with
    pairwise distinct ids, not completed, with a domain, and with the task
    reference of the reply unless that is empty. *)
Theorem generateDailyPlan_result (tasks : list Task.t)
    (dayStartTime dayEndTime context : string) :
  let result := planResult tasks dayStartTime dayEndTime context in
  match planContent tasks dayStartTime dayEndTime context with
  | None =>
      result = ScheduleResult.mk [] "AI Generation Failed. Please try again."
  | Some data =>
      ScheduleResult.explanation result = PlanData.explanation data /\
      NoDup (TimeBlock.id <$> ScheduleResult.schedule result) /\
      length (ScheduleResult.schedule result) = length (PlanData.schedule data) /\
      forall (i : nat) (raw : RawBlock.t),
        PlanData.schedule data !! i = Some raw ->
        exists b : TimeBlock.t,
          ScheduleResult.schedule result !! i = Some b /\
          TimeBlock.startTime b = RawBlock.startTime raw /\
          TimeBlock.endTime b = RawBlock.endTime raw /\
          TimeBlock.label b = RawBlock.label raw /\
          TimeBlock.type b = RawBlock.type raw /\
          TimeBlock.isCompleted b = false /\
          TimeBlock.domain b <> None /\
          TimeBlock.taskId b <> Some "" /\
          (forall x, x <> "" -> RawBlock.taskId raw = Some x ->
                     TimeBlock.taskId b = Some x)
  end.
Proof.
  cbv zeta. unfold generateDailyPlan.
  destruct (planContent tasks dayStartTime dayEndTime context) as [data|];
    [|reflexivity].
  cbn [ScheduleResult.schedule ScheduleResult.explanation].
  split; [reflexivity|]. split.
  { apply (stamped_ids_NoDup "block-" dateNowBlock). reflexivity. }
  split; [apply length_imap|].
  intros i raw Hraw. eexists. split; [rewrite list_lookup_imap, Hraw; reflexivity|].
  cbn. repeat split; try discriminate.
  - destruct (RawBlock.taskId raw) as [[|c s]|]; cbn; discriminate.
  - intros x Hx ->. cbn. destruct x; [contradiction | reflexivity].
Qed.

(** X7. A plan made from the conversation is closed under its task
    references: the tasks have pairwise distinct ids and are not completed,
    and a block references no task, or a task of the plan whose title
    contains its label or is contained in it, letter case apart; when the
    call fails the plan is empty. *)
Theorem generateScheduleFromChat_result (history : list ChatMessage.t)
    (dayStartTime dayEndTime : string) :
  let result := chatResult history dayStartTime dayEndTime in
  (chatContent history = None ->
   result = ReplanResult.mk [] [] "Could not generate plan from conversation.") /\
  NoDup (Task.id <$> ReplanResult.tasks result) /\
  NoDup (TimeBlock.id <$> ReplanResult.schedule result) /\
  (forall t, In t (ReplanResult.tasks result) -> Task.completed t = false) /\
  (forall b, In b (ReplanResult.schedule result) ->
     TimeBlock.isCompleted b = false /\
     (TimeBlock.taskId b = None \/
      exists t, In t (ReplanResult.tasks result) /\
                TimeBlock.taskId b = Some (Task.id t) /\
                (Js.includes (Js.toLowerCase (TimeBlock.label b))
                             (Js.toLowerCase (Task.title t)) = true \/
                 Js.includes (Js.toLowerCase (Task.title t))
                             (Js.toLowerCase (TimeBlock.label b)) = true))).
Proof.
  cbv zeta. unfold generateScheduleFromChat.
  destruct (chatContent history) as [data|];
    cbn [ReplanResult.tasks ReplanResult.schedule].
  - split; [discriminate|]. split.
    { apply (stamped_ids_NoDup "task-" dateNowTask). reflexivity. }
    split.
    { apply (stamped_ids_NoDup "block-" dateNowBlock). reflexivity. }
    split.
    + intros t Ht. apply list_elem_of_In, elem_of_lookup_imap in Ht.
      destruct Ht as (i & t0 & -> & _). reflexivity.
    + intros b Hb. apply list_elem_of_In, elem_of_lookup_imap in Hb.
      destruct Hb as (i & raw & -> & _). split; [reflexivity|].
      cbn [processedBlock TimeBlock.taskId TimeBlock.label].
      destruct (find (titleMatches raw) _) as [m|] eqn:Hfind; [right | left; reflexivity].
      apply find_some in Hfind. destruct Hfind as [Hm Hmatch].
      exists m. split; [exact Hm|]. split; [reflexivity|].
      unfold titleMatches in Hmatch. apply orb_true_iff in Hmatch. exact Hmatch.
  - split; [reflexivity|]. split; [apply NoDup_nil_2|]. split; [apply NoDup_nil_2|].
    split; intros ? [].
Qed.

End PlanResults.

(** ** The other handlers *)

Section MoreHandlers.

Variable generateContent :
  list Task.t -> string -> string -> string -> option ReplanData.t.
Variable planContent :
  list Task.t -> string -> string -> string -> option PlanData.t.
Variable dateNowTask : nat -> N.
Variable dateNowBlock : nat -> N.

Implicit Types (days prev : gmap string DayData.t).
Implicit Types (selectedDate todayStr currentTime taskId : string).

Local Abbreviation replan := (handleReplan generateContent dateNowTask dateNowBlock).

(** X8. The effect that makes sure today is in the store changes nothing
    a reader of the store can see: every date reads as before; afterwards
    today has a record, and running the effect again changes nothing. *)
Theorem ensureToday_unobservable days todayStr :
  let next := ensureToday days todayStr days in
  (forall date, getDayData next date = getDayData days date) /\
  (exists r, next !! todayStr = Some r) /\
  ensureToday next todayStr next = next.
Proof.
  cbv zeta. unfold ensureToday.
  destruct (days !! todayStr) as [r|] eqn:Hday.
  - split; [reflexivity|]. split; [exists r; exact Hday | rewrite Hday; reflexivity].
  - rewrite lookup_insert_eq. split; [|split; [eexists; reflexivity | reflexivity]].
    intros date. unfold getDayData.
    destruct (decide (date = todayStr)) as [->|Hne].
    + rewrite lookup_insert_eq, Hday. reflexivity.
    + rewrite lookup_insert_ne by congruence. reflexivity.
Qed.

(** X9. Generating a plan for the selected date keeps the tasks, the
    distractions and the undo snapshot of that date and every other date;
    when the gateway call fails, the schedule of the date is replaced by
    the empty schedule and the explanation by the failure message. *)
Theorem handleGeneratePlan_record days selectedDate (start end_ : string) prev :
  let pre := getDayData days selectedDate in
  let next :=
    handleGeneratePlan planContent dateNowBlock days selectedDate start end_ prev in
  (exists r : DayData.t,
     next !! selectedDate = Some r /\
     DayData.tasks r = DayData.tasks pre /\
     DayData.distractions r = DayData.distractions pre /\
     DayData.previousVersion r = DayData.previousVersion pre /\
     DayData.date r = DayData.date pre /\
     (planContent (DayData.tasks pre) start end_ ("Planning for " ++ selectedDate)
      = None ->
      DayData.schedule r = [] /\
      DayData.explanation r = "AI Generation Failed. Please try again.")) /\
  (forall other, other <> selectedDate -> next !! other = prev !! other).
Proof.
  cbv zeta. unfold handleGeneratePlan. split.
  - eexists. split; [apply lookup_updateDayData_eq|].
    cbn. repeat split. all: unfold generateDailyPlan; rewrite H; reflexivity.
  - intros other Hne. apply lookup_updateDayData_ne. exact Hne.
Qed.

(** X10. Undo is one level deep: after two replans, an undo gives back the
    tasks, schedule and explanation the first replan had written, and
    nothing is left to undo; the record from before the first replan is
    not restored by a further undo. *)
Theorem undo_is_one_level days todayStr (now1 now2 : string)
    (ctx1 ctx2 : option string) prev :
  let days1 := nextDays prev (replan days todayStr todayStr now1 ctx1 prev) in
  let days2 := nextDays days1 (replan days1 todayStr todayStr now2 ctx2 days1) in
  let days3 := handleUndo days2 todayStr days2 in
  exists r1 : DayData.t,
    days1 !! todayStr = Some r1 /\
    days3 !! todayStr
    = Some (DayData.mk (DayData.tasks r1) (DayData.schedule r1)
              (DayData.explanation r1) (DayData.date r1)
              (DayData.distractions r1) None) /\
    handleUndo days3 todayStr days3 = days3.
Proof.
  intros days1 days2 days3.
  pose proof (replan_record generateContent dateNowTask dateNowBlock
                days todayStr now1 ctx1 prev) as H1.
  cbv zeta in H1. fold days1 in H1.
  pose proof (replan_undo_record generateContent dateNowTask dateNowBlock
                days1 todayStr now2 ctx2 days1) as H3.
  cbv zeta in H3. fold days2 in H3. fold days3 in H3.
  rewrite (getDayData_lookup _ _ _ H1) in H3.
  eexists. split; [exact H1|]. split; [exact H3|].
  apply handleUndo_no_snapshot. rewrite (getDayData_lookup _ _ _ H3). reflexivity.
Qed.

(** X11. An undo restores the snapshot of the last replan, not the last
    state: a task toggled after the replan is back as it was before the
    replan, while distractions noted after the replan stay. *)
Theorem undo_discards_later_toggle days todayStr (now1 now2 : string)
    (ctx : option string) taskId (notes : list string) prev :
  let pre := getDayData days todayStr in
  let days1 := nextDays prev (replan days todayStr todayStr now1 ctx prev) in
  let days2 := handleToggleTask days1 todayStr todayStr now2 taskId days1 in
  let days3 := handleUpdateDistractions days2 todayStr notes days2 in
  let days4 := handleUndo days3 todayStr days3 in
  days4 !! todayStr
  = Some (DayData.mk (DayData.tasks pre) (DayData.schedule pre)
            (DayData.explanation pre) (DayData.date pre) (Some notes) None).
Proof.
  intros pre days1 days2 days3 days4.
  pose proof (replan_record generateContent dateNowTask dateNowBlock
                days todayStr now1 ctx prev) as H1.
  cbv zeta in H1. fold days1 in H1. fold pre in H1.
  assert (H2 : exists ts sc ex,
             days2 !! todayStr
             = Some (DayData.mk ts sc ex (DayData.date pre)
                       (DayData.distractions pre) (Some (snapshotOf pre)))).
  { unfold days2, handleToggleTask.
    destruct (toggleTasks taskId _) as [newTasks flag].
    rewrite lookup_updateDayData_eq, (getDayData_lookup _ _ _ H1).
    eexists _, _, _. reflexivity. }
  destruct H2 as (ts & sc & ex & H2).
  assert (H3 : days3 !! todayStr
               = Some (DayData.mk ts sc ex (DayData.date pre) (Some notes)
                         (Some (snapshotOf pre)))).
  { unfold days3, handleUpdateDistractions.
    rewrite lookup_updateDayData_eq, (getDayData_lookup _ _ _ H2). reflexivity. }
  unfold days4, handleUndo. rewrite (getDayData_lookup _ _ _ H3).
  cbn [DayData.previousVersion]. rewrite lookup_updateDayData_eq.
  rewrite (getDayData_lookup _ _ _ H3). reflexivity.
Qed.

(** X12. An action of the assistant changes the store only when today is
    the selected date: on any other date a replan and a completion both
    end in an alert; on today a completion is the toggle of the task. *)
Theorem handleAssistantAction_today_only days selectedDate todayStr currentTime
    (action : AssistantAction) prev :
  let outcome :=
    handleAssistantAction generateContent dateNowTask dateNowBlock
      days selectedDate todayStr currentTime action prev in
  (selectedDate <> todayStr ->
   (exists msg, outcome = Alert msg) /\ nextDays prev outcome = prev) /\
  (selectedDate = todayStr ->
   forall taskId, action = MARK_COMPLETE taskId ->
     outcome
     = SetDays (handleToggleTask days selectedDate todayStr currentTime taskId prev)).
Proof.
  cbv zeta. split.
  - intros Hne. destruct action as [payload|taskId]; cbn [handleAssistantAction].
    + rewrite (handleReplan_other_date _ _ _ _ _ _ _ _ _ Hne).
      split; [eexists; reflexivity | reflexivity].
    + apply String.eqb_neq in Hne. rewrite Hne.
      split; [eexists; reflexivity | reflexivity].
  - intros -> taskId ->. cbn [handleAssistantAction].
    rewrite String.eqb_refl. reflexivity.
Qed.

End MoreHandlers.

(** ** Invariants of the schedule *)

Section ScheduleInvariants.

Implicit Types (days prev : gmap string DayData.t).
Implicit Types (selectedDate todayStr currentTime taskId : string).

Lemma compare_refl (a : string) : String.compare a a = Eq.
Proof.
  pose proof (String.compare_antisym a a) as H.
  destruct (String.compare a a); cbn in H; congruence.
Qed.

Lemma le_refl (a : string) : Js.le a a = true.
Proof. unfold Js.le, String.leb. rewrite compare_refl. reflexivity. Qed.

Lemma lt_le (a b : string) : Js.lt a b = true -> Js.le a b = true.
Proof.
  unfold Js.lt, Js.le, String.ltb, String.leb.
  destruct (String.compare a b); congruence.
Qed.

Lemma le_trans (a b c : string) :
  Js.le a b = true -> Js.le b c = true -> Js.le a c = true.
Proof.
  intros Hab Hbc. destruct (String.compare b c) eqn:E.
  - apply String.compare_eq_iff in E. subst. exact Hab.
  - apply lt_le, (le_lt_trans a b c Hab). apply lt_iff_compare. exact E.
  - apply le_iff_compare in Hbc. contradiction.
Qed.

(** A kept block ends at or before the current time. *)
Lemma preserveHistory_ended currentTime (schedule : list TimeBlock.t)
    (b : TimeBlock.t) :
  In b (preserveHistory currentTime schedule) ->
  Js.le (TimeBlock.endTime b) currentTime = true.
Proof.
  rewrite preserveHistory_flat_map. intros Hb.
  apply in_flat_map in Hb. destruct Hb as (b0 & _ & Hb).
  unfold preserveStep in Hb.
  destruct (Js.le (TimeBlock.endTime b0) currentTime) eqn:Hle.
  - destruct Hb as [<-|[]]. exact Hle.
  - destruct (_ && _); [|destruct Hb]. destruct Hb as [<-|[]].
    cbn. apply le_refl.
Qed.

(** X14. Every block a replan keeps ends at or before the current time,
    so none reaches into the window the gateway fills; the kept blocks are
    no more than the blocks of the schedule; and when every block of the
    schedule starts before it ends, so does every kept block. *)
Theorem preserveHistory_ends_by_now currentTime (schedule : list TimeBlock.t) :
  let past := preserveHistory currentTime schedule in
  (forall b, In b past -> Js.le (TimeBlock.endTime b) currentTime = true) /\
  length past <= length schedule /\
  ((forall b, In b schedule ->
      Js.lt (TimeBlock.startTime b) (TimeBlock.endTime b) = true) ->
   forall b, In b past ->
      Js.lt (TimeBlock.startTime b) (TimeBlock.endTime b) = true).
Proof.
  cbv zeta. split; [apply preserveHistory_ended|].
  rewrite preserveHistory_flat_map. split.
  - induction schedule as [|b l IH]; [reflexivity|].
    cbn [flat_map]. rewrite length_app. cbn [length].
    assert (length (preserveStep currentTime [] b) <= 1); [|lia].
    unfold preserveStep. destruct (Js.le _ _); [cbn; lia|].
    destruct (_ && _); cbn; lia.
  - intros Hinv b Hb. apply in_flat_map in Hb. destruct Hb as (b0 & Hin & Hb).
    unfold preserveStep in Hb.
    destruct (Js.le (TimeBlock.endTime b0) currentTime) eqn:Hle.
    + destruct Hb as [<-|[]]. apply Hinv, Hin.
    + destruct (Js.lt (TimeBlock.startTime b0) currentTime) eqn:Hlt;
        cbn [andb] in Hb; [|destruct Hb].
      destruct (Js.gt _ _); [|destruct Hb]. destruct Hb as [<-|[]].
      cbn. exact Hlt.
Qed.

Lemma preserveHistory_fixed currentTime (l : list TimeBlock.t) :
  (forall b, In b l -> Js.le (TimeBlock.endTime b) currentTime = true) ->
  preserveHistory currentTime l = l.
Proof.
  intros Hall. rewrite preserveHistory_flat_map.
  induction l as [|b l IH]; [reflexivity|].
  cbn [flat_map]. rewrite (preserveStep_past _ _ (Hall b (or_introl eq_refl))).
  cbn [app]. f_equal. apply IH. intros b' Hb'. apply Hall. right. exact Hb'.
Qed.

(** X15. A later replan keeps the past of an earlier one as it is: with
    [now <= later], the partition at [later] of the blocks kept at [now]
    followed by any new blocks is the blocks kept at [now], unchanged and
    not truncated or relabelled again, followed by the partition of the
    new blocks. *)
Theorem preserveHistory_later (now later : string)
    (schedule newBlocks : list TimeBlock.t) :
  Js.le now later = true ->
  preserveHistory later (preserveHistory now schedule ++ newBlocks)%list
  = (preserveHistory now schedule ++ preserveHistory later newBlocks)%list.
Proof.
  intros Hle. rewrite preserveHistory_app. f_equal.
  apply preserveHistory_fixed. intros b Hb.
  apply le_trans with now; [|exact Hle].
  apply (preserveHistory_ended now schedule b Hb).
Qed.

Lemma preserveHistory_later_witness :
  Js.le "09:45" "10:00" = true /\
  preserveHistory "10:00"
    (preserveHistory "09:45" [Sample.blockDone; Sample.blockX; Sample.blockLater]
     ++ [Sample.blockLater])%list
  = (preserveHistory "09:45" [Sample.blockDone; Sample.blockX; Sample.blockLater]
     ++ preserveHistory "10:00" [Sample.blockLater])%list.
Proof.
  split; [reflexivity|]. apply preserveHistory_later. reflexivity.
Defined.

Lemma markBlock_times taskId (c : bool) (b : TimeBlock.t) :
  TimeBlock.startTime (markBlock taskId c b) = TimeBlock.startTime b /\
  TimeBlock.endTime (markBlock taskId c b) = TimeBlock.endTime b.
Proof. unfold markBlock. destruct (TimeBlock.hasTask b taskId); split; reflexivity. Qed.

(** X16. A toggle keeps the blocks well formed: when every block of the
    date starts before it ends, so does every block of the schedule the
    toggle writes back, the two halves of a split block included. *)
Theorem handleToggleTask_keeps_blocks_ordered days selectedDate todayStr
    currentTime taskId prev :
  (forall b, In b (DayData.schedule (getDayData days selectedDate)) ->
     Js.lt (TimeBlock.startTime b) (TimeBlock.endTime b) = true) ->
  exists r : DayData.t,
    handleToggleTask days selectedDate todayStr currentTime taskId prev
      !! selectedDate = Some r /\
    forall b, In b (DayData.schedule r) ->
      Js.lt (TimeBlock.startTime b) (TimeBlock.endTime b) = true.
Proof.
  intros Hinv. unfold handleToggleTask.
  destruct (toggleTasks taskId _) as [newTasks flag].
  eexists. split; [apply lookup_updateDayData_eq|].
  cbn [PartialDayData.spread PartialDayData.schedule DayData.schedule default].
  assert (Hmark : forall c b,
            In b (map (markBlock taskId c)
                    (DayData.schedule (getDayData days selectedDate))) ->
            Js.lt (TimeBlock.startTime b) (TimeBlock.endTime b) = true).
  { intros c b Hb. apply in_map_iff in Hb. destruct Hb as (b0 & <- & Hb0).
    destruct (markBlock_times taskId c b0) as [-> ->]. apply Hinv, Hb0. }
  intros b Hb.
  destruct (String.eqb selectedDate todayStr); destruct flag;
    try (apply (Hmark _ _ Hb)).
  apply in_flat_map in Hb. destruct Hb as (b0 & Hb0 & Hb).
  unfold completeBlock in Hb.
  destruct (TimeBlock.hasTask b0 taskId); [|destruct Hb as [<-|[]]; apply Hinv, Hb0].
  destruct (Js.gt currentTime (TimeBlock.startTime b0)) eqn:Hs; cbn [andb] in Hb.
  - destruct (Js.lt currentTime (TimeBlock.endTime b0)) eqn:He.
    + destruct Hb as [<-|[<-|[]]]; cbn; [exact Hs | exact He].
    + destruct Hb as [<-|[]]. cbn. apply Hinv, Hb0.
  - destruct Hb as [<-|[]]. cbn. apply Hinv, Hb0.
Qed.

Lemma handleToggleTask_keeps_blocks_ordered_witness :
  (forall b, In b (DayData.schedule (getDayData Sample.days Sample.today)) ->
     Js.lt (TimeBlock.startTime b) (TimeBlock.endTime b) = true) /\
  exists r : DayData.t,
    handleToggleTask Sample.days Sample.today Sample.today "09:30" "X" Sample.days
      !! Sample.today = Some r /\
    forall b, In b (DayData.schedule r) ->
      Js.lt (TimeBlock.startTime b) (TimeBlock.endTime b) = true.
Proof.
  assert (Hinv : forall b,
            In b (DayData.schedule (getDayData Sample.days Sample.today)) ->
            Js.lt (TimeBlock.startTime b) (TimeBlock.endTime b) = true)
    by (intros b [<-|[<-|[<-|[]]]]; reflexivity).
  split; [exact Hinv|].
  apply (handleToggleTask_keeps_blocks_ordered Sample.days Sample.today Sample.today
           "09:30" "X" Sample.days Hinv).
Defined.

End ScheduleInvariants.

(** ** Toggling twice, notes and manual planning *)

Section TasksAndNotes.

Implicit Types (days prev : gmap string DayData.t).
Implicit Types (selectedDate todayStr currentTime taskId : string).

Local Abbreviation flipped taskId :=
  (fun t => if String.eqb (Task.id t) taskId
            then Task.withCompleted t (negb (Task.completed t)) else t).

(** The flag after the tasks, when the tasks of that id agree on
    [completed]. *)
Lemma fold_toggleStep_flag_of taskId (c : bool) (tasks : list Task.t)
    (st : list Task.t * bool) :
  (forall t, In t tasks -> Task.id t = taskId -> Task.completed t = c) ->
  st.2 = negb c \/ (exists t, In t tasks /\ Task.id t = taskId) ->
  (fold_left (toggleStep taskId) tasks st).2 = negb c.
Proof.
  revert st. induction tasks as [|t l IH]; intros st Hall Hsome; cbn [fold_left].
  - destruct Hsome as [H | (t & [] & _)]. exact H.
  - apply IH; [intros t' Ht'; apply Hall; right; assumption|].
    unfold toggleStep. destruct (String.eqb (Task.id t) taskId) eqn:E.
    + left. cbn [snd]. apply String.eqb_eq in E.
      rewrite (Hall t (or_introl eq_refl) E). reflexivity.
    + destruct Hsome as [H | (t' & [<- | Hin] & Hid)].
      * left. exact H.
      * apply String.eqb_neq in E. contradiction.
      * right. exists t'. split; assumption.
Qed.

(** The record a toggle writes on a date that is not today. *)
Lemma toggle_other_date_record days selectedDate todayStr currentTime taskId
    (c : bool) prev :
  let pre := getDayData days selectedDate in
  selectedDate <> todayStr ->
  (exists t, In t (DayData.tasks pre) /\ Task.id t = taskId) ->
  (forall t, In t (DayData.tasks pre) -> Task.id t = taskId ->
             Task.completed t = c) ->
  handleToggleTask days selectedDate todayStr currentTime taskId prev !! selectedDate
  = Some (DayData.mk
            (map (flipped taskId) (DayData.tasks pre))
            (map (markBlock taskId (negb c)) (DayData.schedule pre))
            (DayData.explanation pre) (DayData.date pre)
            (DayData.distractions pre) (DayData.previousVersion pre)).
Proof.
  intros pre Hne Hsome Hall. unfold handleToggleTask. fold pre.
  pose proof (fold_toggleStep_tasks taskId (DayData.tasks pre) ([], false)) as Ht.
  pose proof (fold_toggleStep_flag_of taskId c (DayData.tasks pre) ([], false)
                Hall (or_intror Hsome)) as Hf.
  fold (toggleTasks taskId (DayData.tasks pre)) in Ht, Hf.
  destruct (toggleTasks taskId (DayData.tasks pre)) as [newTasks flag].
  cbn [fst snd app] in Ht, Hf. subst newTasks flag.
  apply String.eqb_neq in Hne. rewrite Hne, lookup_updateDayData_eq.
  destruct (negb c); reflexivity.
Qed.

Lemma flipped_twice taskId (t : Task.t) : flipped taskId (flipped taskId t) = t.
Proof.
  cbv beta. destruct (String.eqb (Task.id t) taskId) eqn:E; cbn; rewrite E.
  - destruct t. cbn. rewrite negb_involutive. reflexivity.
  - reflexivity.
Qed.

Lemma markBlock_twice taskId (a c : bool) (b : TimeBlock.t) :
  markBlock taskId a (markBlock taskId c b) = markBlock taskId a b.
Proof.
  unfold markBlock. destruct (TimeBlock.hasTask b taskId) eqn:E.
  - unfold TimeBlock.hasTask in *. cbn. rewrite E. reflexivity.
  - rewrite E. reflexivity.
Qed.

Lemma markBlock_same taskId (c : bool) (b : TimeBlock.t) :
  (TimeBlock.hasTask b taskId = true -> TimeBlock.isCompleted b = c) ->
  markBlock taskId c b = b.
Proof.
  intros H. unfold markBlock.
  destruct (TimeBlock.hasTask b taskId); [|reflexivity].
  destruct b. cbn in *. rewrite (H eq_refl). reflexivity.
Qed.

(** X13. On a date that is not today, toggling a task twice gives back the
    task list exactly; the blocks of the task end up with [isCompleted]
    equal to the [completed] flag the task had, the other blocks are
    untouched and no block is added.  So the schedule is back as it was
    when the blocks of the task agreed with the task. *)
Theorem toggle_twice_other_date days selectedDate todayStr (now1 now2 : string)
    taskId (c : bool) :
  let pre := getDayData days selectedDate in
  let days1 := handleToggleTask days selectedDate todayStr now1 taskId days in
  let days2 := handleToggleTask days1 selectedDate todayStr now2 taskId days1 in
  selectedDate <> todayStr ->
  (exists t, In t (DayData.tasks pre) /\ Task.id t = taskId) ->
  (forall t, In t (DayData.tasks pre) -> Task.id t = taskId ->
             Task.completed t = c) ->
  exists r : DayData.t,
    days2 !! selectedDate = Some r /\
    DayData.tasks r = DayData.tasks pre /\
    DayData.schedule r = map (markBlock taskId c) (DayData.schedule pre) /\
    ((forall b, In b (DayData.schedule pre) ->
        TimeBlock.taskId b = Some taskId -> TimeBlock.isCompleted b = c) ->
     DayData.schedule r = DayData.schedule pre).
Proof.
  intros pre days1 days2 Hne Hsome Hall.
  pose proof (toggle_other_date_record days selectedDate todayStr now1 taskId c days
                Hne Hsome Hall) as H1.
  fold days1 in H1. fold pre in H1.
  assert (Hpre1 : getDayData days1 selectedDate
                  = DayData.mk (map (flipped taskId) (DayData.tasks pre))
                      (map (markBlock taskId (negb c)) (DayData.schedule pre))
                      (DayData.explanation pre) (DayData.date pre)
                      (DayData.distractions pre) (DayData.previousVersion pre))
    by (apply getDayData_lookup, H1).
  assert (Hsome1 : exists t, In t (DayData.tasks (getDayData days1 selectedDate))
                             /\ Task.id t = taskId).
  { rewrite Hpre1. cbn [DayData.tasks]. destruct Hsome as (t & Ht & Hid).
    exists (flipped taskId t). split; [exact (in_map (flipped taskId) _ t Ht)|].
    cbv beta. destruct (String.eqb (Task.id t) taskId); exact Hid. }
  assert (Hall1 : forall t, In t (DayData.tasks (getDayData days1 selectedDate)) ->
                            Task.id t = taskId -> Task.completed t = negb c).
  { rewrite Hpre1. cbn [DayData.tasks]. intros t' Ht' Hid'.
    apply in_map_iff in Ht'. destruct Ht' as (t & <- & Ht).
    cbv beta in *. destruct (String.eqb (Task.id t) taskId) eqn:E.
    - cbn. apply String.eqb_eq in E. rewrite (Hall t Ht E). reflexivity.
    - apply String.eqb_neq in E. contradiction. }
  pose proof (toggle_other_date_record days1 selectedDate todayStr now2 taskId
                (negb c) days1 Hne Hsome1 Hall1) as H2.
  fold days2 in H2. rewrite Hpre1 in H2.
  cbn [DayData.tasks DayData.schedule DayData.explanation DayData.date
       DayData.distractions DayData.previousVersion] in H2.
  eexists. split; [exact H2|]. cbn [DayData.tasks DayData.schedule].
  rewrite negb_involutive.
  assert (Hsched : map (markBlock taskId c)
                     (map (markBlock taskId (negb c)) (DayData.schedule pre))
                   = map (markBlock taskId c) (DayData.schedule pre)).
  { rewrite List.map_map. apply List.map_ext. intros b. apply markBlock_twice. }
  split; [|split].
  - rewrite List.map_map. etransitivity; [|apply List.map_id].
    apply List.map_ext. intros t. apply flipped_twice.
  - exact Hsched.
  - intros Hagree. rewrite Hsched. etransitivity; [|apply List.map_id].
    apply List.map_ext_in. intros b Hb. apply markBlock_same.
    intros Hhas. apply (Hagree b Hb), hasTask_iff, Hhas.
Qed.

Lemma toggle_twice_other_date_witness :
  let pre := getDayData Sample.days Sample.today in
  let days1 :=
    handleToggleTask Sample.days Sample.today "2026-01-16" "09:30" "X" Sample.days in
  let days2 :=
    handleToggleTask days1 Sample.today "2026-01-16" "09:31" "X" days1 in
  Sample.today <> "2026-01-16" /\
  (exists t, In t (DayData.tasks pre) /\ Task.id t = "X") /\
  (forall t, In t (DayData.tasks pre) -> Task.id t = "X" ->
             Task.completed t = false) /\
  exists r : DayData.t,
    days2 !! Sample.today = Some r /\
    DayData.tasks r = DayData.tasks pre /\
    DayData.schedule r = map (markBlock "X" false) (DayData.schedule pre) /\
    ((forall b, In b (DayData.schedule pre) ->
        TimeBlock.taskId b = Some "X" -> TimeBlock.isCompleted b = false) ->
     DayData.schedule r = DayData.schedule pre).
Proof.
  cbv zeta.
  assert (Hne : Sample.today <> "2026-01-16") by discriminate.
  assert (Hsome : exists t, In t (DayData.tasks (getDayData Sample.days Sample.today))
                            /\ Task.id t = "X")
    by (exists Sample.taskX; split; [left; reflexivity | reflexivity]).
  assert (Hall : forall t, In t (DayData.tasks (getDayData Sample.days Sample.today)) ->
                           Task.id t = "X" -> Task.completed t = false)
    by (intros t [<- | []] _; reflexivity).
  split; [exact Hne|]. split; [exact Hsome|]. split; [exact Hall|].
  apply (toggle_twice_other_date Sample.days Sample.today "2026-01-16"
           "09:30" "09:31" "X" false Hne Hsome Hall).
Defined.

End TasksAndNotes.

Section NotesAndPlanning.

Implicit Types (days prev : gmap string DayData.t).
Implicit Types (selectedDate todayStr : string).

Local Abbreviation blank s :=
  (Forall (fun c => JsText.isWhiteSpace c = true) (list_ascii_of_string s)).

Lemma trimStart_empty (s : string) : JsText.trimStart s = "" <-> blank s.
Proof.
  induction s as [|c s IH]; cbn [JsText.trimStart list_ascii_of_string].
  - split; [constructor | reflexivity].
  - destruct (JsText.isWhiteSpace c) eqn:E.
    + rewrite IH. split; [constructor; assumption | inversion 1; assumption].
    + split; [discriminate | inversion 1; congruence].
Qed.

Lemma trimEnd_keeps_head (c : ascii) (s : string) :
  JsText.isWhiteSpace c = false -> JsText.trimEnd (String c s) <> "".
Proof.
  intros E. cbn [JsText.trimEnd]. destruct (JsText.trimEnd s); [rewrite E|]; discriminate.
Qed.

Lemma trimStart_head (s : string) :
  JsText.trimStart s = ""
  \/ exists c r, JsText.trimStart s = String c r /\ JsText.isWhiteSpace c = false.
Proof.
  induction s as [|c s IH]; cbn [JsText.trimStart]; [left; reflexivity|].
  destruct (JsText.isWhiteSpace c) eqn:E; [exact IH|].
  right. exists c, s. split; [reflexivity | exact E].
Qed.

(** A string trims to the empty string exactly when it is made of white
    space. *)
Lemma trim_empty (s : string) : JsText.trim s = "" <-> blank s.
Proof.
  unfold JsText.trim. rewrite <- trimStart_empty.
  destruct (trimStart_head s) as [-> | (c & r & -> & Hc)].
  - split; reflexivity.
  - split; [intros H; apply trimEnd_keeps_head in H; [destruct H | exact Hc]
           | discriminate].
Qed.

(** X17. Saving a note made of white space only leaves the store as it
    is.  Any other note is appended, untrimmed, to the notes of today, and
    that list is written to the record of the selected date, whose other
    fields, like every other date, stay as they are. *)
Theorem handleSaveDistraction_record days selectedDate todayStr
    (distraction : string) prev :
  let next := handleSaveDistraction days selectedDate todayStr distraction prev in
  (blank distraction -> next = prev) /\
  (~ blank distraction ->
   (exists r : DayData.t,
      next !! selectedDate = Some r /\
      DayData.distractions r
      = Some (default [] (DayData.distractions (getDayData days todayStr))
              ++ [distraction])%list /\
      DayData.tasks r = DayData.tasks (getDayData days selectedDate) /\
      DayData.schedule r = DayData.schedule (getDayData days selectedDate) /\
      DayData.explanation r = DayData.explanation (getDayData days selectedDate) /\
      DayData.previousVersion r
      = DayData.previousVersion (getDayData days selectedDate)) /\
   (forall other, other <> selectedDate -> next !! other = prev !! other)).
Proof.
  cbv zeta. unfold handleSaveDistraction. split.
  - intros Hb. apply trim_empty in Hb. rewrite Hb. reflexivity.
  - intros Hnb.
    assert (Htr : Js.truthy (JsText.trim distraction) = true).
    { destruct (JsText.trim distraction) eqn:E; [|reflexivity].
      exfalso. apply Hnb, trim_empty, E. }
    rewrite Htr. cbn [negb].
    unfold handleAddDistraction, handleUpdateDistractions. split.
    + eexists. split; [apply lookup_updateDayData_eq|]. repeat split.
    + intros other Hne. apply lookup_updateDayData_ne. exact Hne.
Qed.

Lemma existsb_false_filter {A : Type} (f : A -> bool) (l : list A) :
  existsb f l = false -> List.filter f l = [].
Proof.
  induction l as [|x l IH]; [reflexivity|]. cbn.
  destruct (f x); [discriminate | exact IH].
Qed.

(** X18. Adding a task by hand keeps the limits of a day: a list of at
    most [MAX_TASKS_PER_DAY] tasks stays so, and a list with at most one
    non-negotiable task stays so.  The list is left as it is or gets one
    task at its end, not completed, with the title of the form and the
    clock as its id. *)
Theorem handleAddTask_keeps_limits (tasks : list Task.t) (dateNow : N)
    (form : TaskForm.t) :
  let next := tasksAfter tasks (handleAddTask tasks dateNow form) in
  let nonNegotiable l :=
    length (List.filter (fun t => isNonNegotiable (Task.priority t)) l) in
  (length tasks <= MAX_TASKS_PER_DAY -> length next <= MAX_TASKS_PER_DAY) /\
  (nonNegotiable tasks <= 1 -> nonNegotiable next <= 1) /\
  (next = tasks \/
   exists t, next = (tasks ++ [t])%list /\
             Task.completed t = false /\
             Task.title t = TaskForm.newTaskTitle form /\
             Task.priority t = TaskForm.priority form /\
             Task.id t = Js.ofN dateNow).
Proof.
  cbv zeta. unfold handleAddTask.
  destruct (negb (Js.truthy _)); cbn [tasksAfter]; [auto|].
  destruct (Nat.leb MAX_TASKS_PER_DAY (length tasks)) eqn:Hfull;
    cbn [tasksAfter]; [auto|].
  apply Nat.leb_gt in Hfull.
  destruct (isNonNegotiable (TaskForm.priority form)) eqn:Hp; cbn [andb].
  - destruct (hasNonNegotiable tasks) eqn:Hhas; cbn [tasksAfter]; [auto|].
    split; [rewrite length_app; cbn; lia|]. split.
    + intros _. rewrite List.filter_app, length_app.
      unfold hasNonNegotiable in Hhas. rewrite (existsb_false_filter _ _ Hhas).
      cbn. rewrite Hp. cbn. lia.
    + right. eexists. split; [reflexivity|]. repeat split.
  - cbn [tasksAfter]. split; [rewrite length_app; cbn; lia|]. split.
    + intros Hone. rewrite List.filter_app, length_app. cbn. rewrite Hp. cbn. lia.
    + right. eexists. split; [reflexivity|]. repeat split.
Qed.

(** X19. Removing a task in the planning view removes every task of that
    id from the tasks of the selected date and keeps the others in order;
    the schedule is not touched, so a block that references the removed
    task stays in the schedule with its reference. *)
Theorem removeTask_keeps_schedule days selectedDate (id : string) prev :
  let pre := getDayData days selectedDate in
  let next :=
    setTasks days selectedDate (TasksValue (removeTask (DayData.tasks pre) id)) prev in
  exists r : DayData.t,
    next !! selectedDate = Some r /\
    DayData.tasks r
    = List.filter (fun t => negb (String.eqb (Task.id t) id)) (DayData.tasks pre) /\
    (forall t, In t (DayData.tasks r) <-> In t (DayData.tasks pre) /\ Task.id t <> id) /\
    DayData.schedule r = DayData.schedule pre /\
    (forall b, In b (DayData.schedule pre) -> TimeBlock.taskId b = Some id ->
       In b (DayData.schedule r) /\
       forall t, In t (DayData.tasks r) -> TimeBlock.taskId b <> Some (Task.id t)).
Proof.
  cbv zeta. unfold setTasks. eexists. split; [apply lookup_updateDayData_eq|].
  cbn [PartialDayData.spread DayData.tasks DayData.schedule default
       PartialDayData.tasks PartialDayData.schedule].
  assert (Hin : forall t,
            In t (removeTask (DayData.tasks (getDayData days selectedDate)) id)
            <-> In t (DayData.tasks (getDayData days selectedDate)) /\ Task.id t <> id).
  { intros t. unfold removeTask. rewrite List.filter_In, negb_true_iff, String.eqb_neq.
    reflexivity. }
  split; [reflexivity|]. split; [exact Hin|]. split; [reflexivity|].
  intros b Hb Hid. split; [exact Hb|].
  intros t Ht. apply Hin in Ht. destruct Ht as [_ Hne]. congruence.
Qed.

End NotesAndPlanning.

(** ** Progress figures *)

Section Progress.

Local Open Scope Z_scope.

Lemma fold_durations (l : list Task.t) (a : Z) :
  fold_left (fun acc t => acc + Task.durationMinutes t) l a = a + sumDurations l.
Proof.
  unfold sumDurations. revert a.
  induction l as [|t l IH]; intros a; cbn [fold_left]; [lia|].
  rewrite IH, (IH (0 + _)). lia.
Qed.

Lemma sumDurations_cons (t : Task.t) (l : list Task.t) :
  sumDurations (t :: l) = Task.durationMinutes t + sumDurations l.
Proof. unfold sumDurations at 1. cbn [fold_left]. rewrite fold_durations. lia. Qed.

Lemma sumDurations_nonneg (l : list Task.t) :
  (forall t, In t l -> 0 <= Task.durationMinutes t) -> 0 <= sumDurations l.
Proof.
  induction l as [|t l IH]; intros H; [reflexivity|].
  rewrite sumDurations_cons.
  pose proof (H t (or_introl eq_refl)).
  assert (0 <= sumDurations l) by (apply IH; intros; apply H; right; assumption).
  lia.
Qed.

Lemma sumDurations_filter_le (f : Task.t -> bool) (l : list Task.t) :
  (forall t, In t l -> 0 <= Task.durationMinutes t) ->
  0 <= sumDurations (List.filter f l) <= sumDurations l.
Proof.
  induction l as [|t l IH]; intros H; [cbn; lia|].
  pose proof (H t (or_introl eq_refl)).
  assert (0 <= sumDurations (List.filter f l) <= sumDurations l)
    by (apply IH; intros; apply H; right; assumption).
  cbn [List.filter]. destruct (f t); rewrite ?sumDurations_cons; lia.
Qed.

Lemma filter_length_le {A : Type} (f : A -> bool) (l : list A) :
  (length (List.filter f l) <= length l)%nat.
Proof. induction l as [|x l IH]; cbn; [lia|]. destruct (f x); cbn; lia. Qed.

Lemma filter_length_all {A : Type} (f : A -> bool) (l : list A) :
  length (List.filter f l) = length l <-> forall x, In x l -> f x = true.
Proof.
  induction l as [|x l IH]; cbn; [split; [intros _ ? [] | reflexivity]|].
  pose proof (filter_length_le f l). destruct (f x) eqn:E; cbn.
  - split.
    + intros H' y [<-|Hy]; [exact E | apply IH; [lia | exact Hy]].
    + intros H'. f_equal. apply IH. intros y Hy. apply H'. right. exact Hy.
  - split; [lia|]. intros H'. rewrite (H' x (or_introl eq_refl)) in E. discriminate.
Qed.

Lemma filter_length_none {A : Type} (f : A -> bool) (l : list A) :
  length (List.filter f l) = 0%nat <-> forall x, In x l -> f x = false.
Proof.
  induction l as [|x l IH]; cbn; [split; [intros _ ? [] | reflexivity]|].
  destruct (f x) eqn:E; cbn.
  - split; [discriminate|]. intros H'. rewrite (H' x (or_introl eq_refl)) in E.
    discriminate.
  - rewrite IH. split.
    + intros H' y [<-|Hy]; [exact E | apply H', Hy].
    + intros H' y Hy. apply H'. right. exact Hy.
Qed.

Lemma domainEqb_eq (a b : LifeDomain) : domainEqb a b = true <-> a = b.
Proof. destruct a, b; cbn; split; congruence. Qed.

(** X20. The total of the time distribution is the time of the completed
    tasks outside the Routine domain: completed Routine tasks are left out
    of the chart.  The counts over the tasks and over the work blocks never
    exceed their totals. *)
Theorem totalMinutes_leaves_out_routine (tasks : list Task.t)
    (schedule : list TimeBlock.t) :
  totalMinutes tasks
  = sumDurations
      (List.filter (fun t => Task.completed t
                             && negb (domainEqb (Task.domain t) Routine)) tasks) /\
  (completedTasks tasks <= totalTasks tasks)%nat /\
  (length (completedBlocks schedule) <= length (workBlocks schedule))%nat.
Proof.
  split; [|split; apply filter_length_le].
  unfold totalMinutes, domainData, chartDomains. cbn [map fold_left snd].
  induction tasks as [|t l IH]; [reflexivity|].
  cbn [List.filter].
  destruct (Task.domain t) eqn:Hd; cbn [domainEqb negb andb List.filter];
    destruct (Task.completed t) eqn:Hc; cbn [andb List.filter];
    rewrite ?Hc; rewrite ?sumDurations_cons; lia.
Qed.

(** X21. With durations that are not negative, no share of the chart is
    negative and none exceeds the total. *)
Theorem domainData_within_total (tasks : list Task.t) :
  (forall t, In t tasks -> 0 <= Task.durationMinutes t) ->
  forall d m, In (d, m) (domainData tasks) -> 0 <= m <= totalMinutes tasks.
Proof.
  intros Hpos d m Hin.
  assert (Hshare : forall d0,
            0 <= sumDurations
                   (List.filter Task.completed
                      (List.filter (fun t => domainEqb (Task.domain t) d0) tasks))).
  { intros d0. apply sumDurations_nonneg. intros t Ht.
    apply List.filter_In in Ht. destruct Ht as [Ht _].
    apply List.filter_In in Ht. destruct Ht as [Ht _]. apply Hpos, Ht. }
  pose proof (Hshare Academic). pose proof (Hshare Skill).
  pose proof (Hshare Health). pose proof (Hshare Spirituality).
  unfold totalMinutes, domainData, chartDomains in *.
  cbn [map fold_left snd In] in *.
  destruct Hin as [E|[E|[E|[E|[]]]]]; injection E as _ <-; lia.
Qed.

Lemma domainData_within_total_witness :
  (forall t, In t [Sample.taskX] -> 0 <= Task.durationMinutes t) /\
  forall d m, In (d, m) (domainData [Sample.taskX]) ->
              0 <= m <= totalMinutes [Sample.taskX].
Proof.
  assert (H : forall t, In t [Sample.taskX] -> 0 <= Task.durationMinutes t)
    by (intros t [<-|[]]; cbn; lia).
  split; [exact H | apply (domainData_within_total [Sample.taskX] H)].
Defined.

(** X22. The status of a life domain: Inactive exactly when the day has no
    task of the domain, Strong exactly when it has some and all are
    completed, Pending exactly when it has some and none is completed; and
    the completed count never exceeds the planned count. *)
Theorem getDomainStats_status (tasks : list Task.t) (domainId : LifeDomain) :
  let stats := getDomainStats tasks domainId in
  let inDomain t := In t tasks /\ Task.domain t = domainId in
  (DomainStats.completedCount stats <= DomainStats.plannedCount stats)%nat /\
  (DomainStats.status stats = Inactive <-> forall t, ~ inDomain t) /\
  (DomainStats.status stats = Strong <->
     (exists t, inDomain t) /\ forall t, inDomain t -> Task.completed t = true) /\
  (DomainStats.status stats = Pending <->
     (exists t, inDomain t) /\ forall t, inDomain t -> Task.completed t = false).
Proof.
  cbv zeta. unfold getDomainStats.
  cbn [DomainStats.completedCount DomainStats.plannedCount DomainStats.status].
  set (domainTasks := List.filter (fun t => domainEqb (Task.domain t) domainId) tasks).
  assert (Hdom : forall t, In t domainTasks <-> In t tasks /\ Task.domain t = domainId).
  { intros t. unfold domainTasks. rewrite List.filter_In, domainEqb_eq. reflexivity. }
  pose proof (filter_length_le Task.completed domainTasks) as Hle.
  pose proof (filter_length_all Task.completed domainTasks) as Hall.
  pose proof (filter_length_none Task.completed domainTasks) as Hnone.
  assert (Hempty : length domainTasks = 0%nat <-> forall t, ~ In t domainTasks).
  { destruct domainTasks as [|t l]; cbn; split; auto; try discriminate.
    intros H. exfalso. apply (H t). left. reflexivity. }
  assert (Hsome : (0 < length domainTasks)%nat <-> exists t, In t domainTasks).
  { destruct domainTasks as [|t l]; cbn; split; try lia.
    - intros (t & []).
    - intros _. exists t. left. reflexivity. }
  setoid_rewrite <- Hdom.
  split; [exact Hle|].
  destruct (Nat.ltb 0 (length domainTasks)) eqn:Hplanned.
  - apply Nat.ltb_lt in Hplanned.
    destruct (Nat.eqb _ (length domainTasks)) eqn:Hfull.
    + apply Nat.eqb_eq in Hfull. split; [|split].
      * split; [discriminate|]. intros H. apply Hempty in H. lia.
      * split; [intros _|reflexivity]. split; [apply Hsome, Hplanned | apply Hall, Hfull].
      * split; [discriminate|]. intros [_ H]. apply Hnone in H. lia.
    + apply Nat.eqb_neq in Hfull.
      destruct (Nat.ltb 0 (length (List.filter Task.completed domainTasks))) eqn:Hdone.
      * apply Nat.ltb_lt in Hdone. split; [|split].
        -- split; [discriminate|]. intros H. apply Hempty in H. lia.
        -- split; [discriminate|]. intros [_ H]. apply Hall in H. lia.
        -- split; [discriminate|]. intros [_ H]. apply Hnone in H. lia.
      * apply Nat.ltb_ge in Hdone. split; [|split].
        -- split; [discriminate|]. intros H. apply Hempty in H. lia.
        -- split; [discriminate|]. intros [_ H]. apply Hall in H. lia.
        -- split; [intros _|reflexivity].
           split; [apply Hsome, Hplanned | apply Hnone; lia].
  - apply Nat.ltb_ge in Hplanned. split; [|split].
    + split; [intros _|reflexivity]. apply Hempty. lia.
    + split; [discriminate|]. intros [H _]. apply Hsome in H. lia.
    + split; [discriminate|]. intros [H _]. apply Hsome in H. lia.
Qed.

End Progress.

(** ** The active and the next block of the focus view *)

Section NowModeFacts.

Local Open Scope N_scope.

Local Abbreviation startKnown b :=
  (exists x, getMinutes (TimeBlock.startTime b) = Some x).

Local Abbreviation noLater := (fun a b => startsNoLater a b = true).

Lemma insertByStart_perm (b : TimeBlock.t) (l : list TimeBlock.t) :
  Permutation (insertByStart b l) (b :: l).
Proof.
  induction l as [|x l IH]; cbn [insertByStart]; [reflexivity|].
  destruct (startsNoLater b x); [reflexivity|].
  rewrite IH. apply perm_swap.
Qed.

(** Sorting keeps the blocks of the schedule, each as many times as it
    occurs. *)
Lemma sortByStart_perm (schedule : list TimeBlock.t) :
  Permutation (sortByStart schedule) schedule.
Proof.
  induction schedule as [|b l IH]; [reflexivity|].
  cbn [sortByStart fold_right]. fold (sortByStart l).
  rewrite insertByStart_perm, IH. reflexivity.
Qed.

Lemma In_sortByStart (schedule : list TimeBlock.t) (b : TimeBlock.t) :
  In b (sortByStart schedule) <-> In b schedule.
Proof.
  split; apply Permutation_in; [|symmetry]; apply sortByStart_perm.
Qed.

Lemma noLater_trans (a b c : TimeBlock.t) :
  startKnown b -> noLater a b -> noLater b c -> noLater a c.
Proof.
  unfold startsNoLater. intros (y & ->).
  destruct (getMinutes (TimeBlock.startTime a)),
           (getMinutes (TimeBlock.startTime c)); auto.
  rewrite !N.leb_le. lia.
Qed.

Lemma noLater_total (a b : TimeBlock.t) :
  startsNoLater a b = false -> noLater b a.
Proof.
  unfold startsNoLater.
  destruct (getMinutes (TimeBlock.startTime a)),
           (getMinutes (TimeBlock.startTime b)); auto; try discriminate.
  rewrite N.leb_gt, N.leb_le. lia.
Qed.

Lemma insertByStart_sorted (b : TimeBlock.t) (l : list TimeBlock.t) :
  (forall x, In x l -> startKnown x) ->
  Sorted.StronglySorted noLater l ->
  Sorted.StronglySorted noLater (insertByStart b l).
Proof.
  intros Hknown Hsorted.
  induction Hsorted as [|x l Hl IH Hx]; cbn [insertByStart].
  - repeat constructor.
  - destruct (startsNoLater b x) eqn:E.
    + constructor; [constructor; assumption|].
      constructor; [exact E|].
      apply List.Forall_forall. intros y Hy.
      apply noLater_trans with x; [apply Hknown; left; reflexivity | exact E |].
      rewrite List.Forall_forall in Hx. apply Hx, Hy.
    + constructor.
      * apply IH. intros y Hy. apply Hknown. right. exact Hy.
      * apply List.Forall_forall. intros y Hy.
        apply (Permutation_in _ (insertByStart_perm b l)) in Hy.
        destruct Hy as [<-|Hy]; [apply noLater_total, E|].
        rewrite List.Forall_forall in Hx. apply Hx, Hy.
Qed.

Lemma sortByStart_sorted (schedule : list TimeBlock.t) :
  (forall x, In x schedule -> startKnown x) ->
  Sorted.StronglySorted noLater (sortByStart schedule).
Proof.
  induction schedule as [|b l IH]; intros Hknown; [constructor|].
  cbn [sortByStart fold_right]. fold (sortByStart l).
  apply insertByStart_sorted.
  - intros x Hx. apply (proj1 (In_sortByStart l x)) in Hx.
    apply Hknown. right. exact Hx.
  - apply IH. intros x Hx. apply Hknown. right. exact Hx.
Qed.

(** What [find] returns on a sorted list comes no later than every other
    element that passes the test. *)
Lemma find_sorted_first (P : TimeBlock.t -> bool) (l : list TimeBlock.t)
    (b : TimeBlock.t) :
  Sorted.StronglySorted noLater l ->
  find P l = Some b ->
  P b = true /\ In b l /\
  forall b', In b' l -> P b' = true -> b' = b \/ noLater b b'.
Proof.
  intros Hsorted. induction Hsorted as [|x l Hl IH Hx]; cbn [find]; [discriminate|].
  destruct (P x) eqn:E.
  - intros [= <-]. split; [exact E|]. split; [left; reflexivity|].
    intros b' [<-|Hb'] _; [left; reflexivity | right].
    rewrite List.Forall_forall in Hx. apply Hx, Hb'.
  - intros Hfind. destruct (IH Hfind) as (Hp & Hin & Hmin).
    split; [exact Hp|]. split; [right; exact Hin|].
    intros b' [<-|Hb'] Hpb'; [congruence | apply Hmin; assumption].
Qed.

Lemma noLater_minutes (a b : TimeBlock.t) (x y : N) :
  getMinutes (TimeBlock.startTime a) = Some x ->
  getMinutes (TimeBlock.startTime b) = Some y ->
  noLater a b -> x <= y.
Proof. unfold startsNoLater. intros -> ->. apply N.leb_le. Qed.

(** X23. When the start of every block of today can be read, the active
    block of the focus view is a block of today that contains the current
    minute, and no block that contains it starts earlier; no block is
    shown as active exactly when no block contains the current minute.
    The next block is shown only when there is no active block and the day
    has tasks; it starts after the current minute, and no block that
    starts after it starts earlier. *)
Theorem focus_view_now_mode (todayData : DayData.t) (currentMinutes : option N) :
  (forall b, In b (DayData.schedule todayData) -> startKnown b) ->
  let schedule := DayData.schedule todayData in
  (forall b x,
     activeBlock todayData currentMinutes = Some b ->
     getMinutes (TimeBlock.startTime b) = Some x ->
     In b schedule /\ containsNow currentMinutes b = true /\
     forall b' y, In b' schedule -> containsNow currentMinutes b' = true ->
       getMinutes (TimeBlock.startTime b') = Some y -> x <= y) /\
  (activeBlock todayData currentMinutes = None <->
   forall b, In b schedule -> containsNow currentMinutes b = false) /\
  (forall b x,
     nextBlock todayData currentMinutes = Some b ->
     getMinutes (TimeBlock.startTime b) = Some x ->
     activeBlock todayData currentMinutes = None /\
     DayData.tasks todayData <> [] /\
     In b schedule /\ startsAfter currentMinutes b = true /\
     forall b' y, In b' schedule -> startsAfter currentMinutes b' = true ->
       getMinutes (TimeBlock.startTime b') = Some y -> x <= y).
Proof.
  intros Hknown schedule.
  pose proof (sortByStart_sorted schedule Hknown) as Hsorted.
  assert (Hmin : forall P b x,
            find P (sortByStart schedule) = Some b ->
            getMinutes (TimeBlock.startTime b) = Some x ->
            In b schedule /\ P b = true /\
            forall b' y, In b' schedule -> P b' = true ->
              getMinutes (TimeBlock.startTime b') = Some y -> x <= y).
  { intros P b x Hfind Hx.
    destruct (find_sorted_first P _ b Hsorted Hfind) as (Hp & Hin & Hfirst).
    split; [apply (proj1 (In_sortByStart schedule b)), Hin|]. split; [exact Hp|].
    intros b' y Hb' Hpb' Hy. apply (proj2 (In_sortByStart schedule b')) in Hb'.
    destruct (Hfirst b' Hb' Hpb') as [-> | Hle]; [|apply (noLater_minutes b b'); assumption].
    assert (x = y) by congruence. lia. }
  split; [|split].
  - intros b x. unfold activeBlock, todayScheduleSorted. apply Hmin.
  - unfold activeBlock, todayScheduleSorted. fold schedule. split.
    + intros Hnone b Hb. apply (proj2 (In_sortByStart schedule b)) in Hb.
      apply (find_none _ _ Hnone b Hb).
    + intros Hall. destruct (find _ _) as [b|] eqn:Hfind; [|reflexivity].
      apply find_some in Hfind. destruct Hfind as [Hb Hp].
      apply (proj1 (In_sortByStart schedule b)) in Hb.
      rewrite (Hall b Hb) in Hp. discriminate.
  - intros b x. unfold nextBlock.
    destruct (activeBlock todayData currentMinutes) eqn:Hact; [discriminate|].
    unfold hasPlan. destruct (DayData.tasks todayData) eqn:Htasks; cbn; [discriminate|].
    unfold todayScheduleSorted. intros Hfind Hx.
    destruct (Hmin _ b x Hfind Hx) as (Hin & Hp & Hle).
    split; [reflexivity|]. split; [discriminate|]. repeat split; assumption.
Qed.

End NowModeFacts.

Section ActiveAfterChange.

Variable generateContent :
  list Task.t -> string -> string -> string -> option ReplanData.t.
Variable dateNowTask : nat -> N.
Variable dateNowBlock : nat -> N.

Implicit Types (days prev : gmap string DayData.t).
Implicit Types (todayStr currentTime taskId : string).

Local Open Scope N_scope.

Lemma lt_minutes (s t : string) (a b : N) :
  wellFormedTime s = true -> wellFormedTime t = true ->
  getMinutes s = Some a -> getMinutes t = Some b ->
  Js.lt s t = true -> a < b.
Proof.
  intros Hs Ht Ha Hb Hlt. apply lt_iff_compare in Hlt.
  rewrite (compare_wellFormed s t a b Hs Ht Ha Hb) in Hlt.
  apply N.compare_lt_iff. exact Hlt.
Qed.

Lemma le_minutes (s t : string) (a b : N) :
  wellFormedTime s = true -> wellFormedTime t = true ->
  getMinutes s = Some a -> getMinutes t = Some b ->
  Js.le s t = true -> a <= b.
Proof.
  intros Hs Ht Ha Hb Hle. apply le_iff_compare in Hle.
  rewrite (compare_wellFormed s t a b Hs Ht Ha Hb) in Hle.
  apply N.compare_le_iff. exact Hle.
Qed.

Lemma activeBlock_none (todayData : DayData.t) (currentMinutes : option N) :
  (forall b, In b (DayData.schedule todayData) ->
             containsNow currentMinutes b = false) ->
  activeBlock todayData currentMinutes = None.
Proof.
  intros Hall. unfold activeBlock, todayScheduleSorted.
  destruct (find _ _) as [b|] eqn:Hfind; [|reflexivity].
  apply find_some in Hfind. destruct Hfind as [Hb Hp].
  apply (proj1 (In_sortByStart _ b)) in Hb. rewrite (Hall b Hb) in Hp. discriminate.
Qed.

(** A block that ends at the current time, or earlier, does not contain
    the current minute. *)
Lemma containsNow_ended currentTime (b : TimeBlock.t) :
  wellFormedTime currentTime = true ->
  wellFormedTime (TimeBlock.endTime b) = true ->
  Js.le (TimeBlock.endTime b) currentTime = true ->
  containsNow (getMinutes currentTime) b = false.
Proof.
  intros Hnow Hend Hle.
  destruct (getMinutes_wellFormed _ Hnow) as (c & Hc & _).
  destruct (getMinutes_wellFormed _ Hend) as (e & He & _).
  pose proof (le_minutes _ _ e c Hend Hnow He Hc Hle) as Hec.
  unfold containsNow. rewrite Hc, He.
  destruct (getMinutes (TimeBlock.startTime b)); [|reflexivity].
  apply andb_false_iff. right. apply N.ltb_ge. exact Hec.
Qed.

(** X24. At the minute of a replan none of the blocks the replan keeps is
    the active block: a kept block contains the current minute no more.
    So after a replan whose gateway call failed the focus view has no
    active block at that minute. *)
Theorem replan_past_not_active days todayStr currentTime
    (customContext : option string) prev :
  let pre := getDayData days todayStr in
  wellFormedTime currentTime = true ->
  (forall b, In b (DayData.schedule pre) ->
             wellFormedTime (TimeBlock.endTime b) = true) ->
  (forall b, In b (preserveHistory currentTime (DayData.schedule pre)) ->
             containsNow (getMinutes currentTime) b = false) /\
  (generateContent (DayData.tasks pre) currentTime "23:59"
     (contextOrDefault customContext) = None ->
   exists r : DayData.t,
     nextDays prev
       (handleReplan generateContent dateNowTask dateNowBlock days todayStr
          todayStr currentTime customContext prev) !! todayStr = Some r /\
     activeBlock r (getMinutes currentTime) = None).
Proof.
  intros pre Hnow Hends.
  assert (Hpast : forall b,
            In b (preserveHistory currentTime (DayData.schedule pre)) ->
            containsNow (getMinutes currentTime) b = false).
  { intros b Hb. apply containsNow_ended; [exact Hnow| |].
    - destruct (preserveHistory_origin _ _ _ Hb) as (b0 & Hb0 & [-> | ->]);
        [apply Hends, Hb0 | exact Hnow].
    - apply (preserveHistory_ended currentTime (DayData.schedule pre) b Hb). }
  split; [exact Hpast|].
  intros Hfail. eexists. split; [apply replan_record|].
  apply activeBlock_none. cbn [DayData.schedule].
  rewrite (adaptiveReplan_failure _ _ _ _ _ _ Hfail). cbn [ReplanResult.schedule].
  rewrite app_nil_r. exact Hpast.
Qed.

End ActiveAfterChange.

Lemma replan_past_not_active_witness :
  wellFormedTime "09:45" = true /\
  (forall b, In b (DayData.schedule (getDayData Sample.days Sample.today)) ->
             wellFormedTime (TimeBlock.endTime b) = true) /\
  exists r : DayData.t,
    nextDays Sample.days
      (handleReplan Sample.noReply Sample.clock Sample.clock Sample.days
         Sample.today Sample.today "09:45" None Sample.days) !! Sample.today
    = Some r /\
    activeBlock r (getMinutes "09:45") = None.
Proof.
  assert (Hends : forall b,
            In b (DayData.schedule (getDayData Sample.days Sample.today)) ->
            wellFormedTime (TimeBlock.endTime b) = true)
    by (intros b [<-|[<-|[<-|[]]]]; reflexivity).
  split; [reflexivity|]. split; [exact Hends|].
  destruct (replan_past_not_active Sample.noReply Sample.clock Sample.clock
              Sample.days Sample.today "09:45" None Sample.days eq_refl Hends)
    as [_ Hfail].
  apply Hfail. reflexivity.
Defined.

Section ActiveAfterCompletion.

Implicit Types (days prev : gmap string DayData.t).
Implicit Types (todayStr currentTime taskId : string).

Local Open Scope N_scope.

Lemma containsNow_in_progress currentTime (b : TimeBlock.t) :
  wellFormedTime currentTime = true ->
  wellFormedTime (TimeBlock.startTime b) = true ->
  wellFormedTime (TimeBlock.endTime b) = true ->
  Js.lt (TimeBlock.startTime b) currentTime = true ->
  Js.lt currentTime (TimeBlock.endTime b) = true ->
  containsNow (getMinutes currentTime) b = true.
Proof.
  intros Hnow Hst Hen Hs He.
  destruct (getMinutes_wellFormed _ Hnow) as (c & Hc & _).
  destruct (getMinutes_wellFormed _ Hst) as (s & Hsm & _).
  destruct (getMinutes_wellFormed _ Hen) as (e & Hem & _).
  pose proof (lt_minutes _ _ s c Hst Hnow Hsm Hc Hs).
  pose proof (lt_minutes _ _ c e Hnow Hen Hc Hem He).
  unfold containsNow. rewrite Hc, Hsm, Hem.
  apply andb_true_iff. rewrite N.leb_le, N.ltb_lt. lia.
Qed.

Lemma containsNow_completedBlock currentTime (b : TimeBlock.t) :
  containsNow (getMinutes currentTime) (completedBlock currentTime b) = false.
Proof.
  unfold containsNow. cbn [completedBlock TimeBlock.startTime TimeBlock.endTime].
  destruct (getMinutes currentTime) as [c|]; [|reflexivity].
  destruct (getMinutes (TimeBlock.startTime b)); [|reflexivity].
  apply andb_false_iff. right. apply N.ltb_irrefl.
Qed.

Lemma containsNow_bufferBlock currentTime (b : TimeBlock.t) :
  wellFormedTime currentTime = true ->
  wellFormedTime (TimeBlock.endTime b) = true ->
  Js.lt currentTime (TimeBlock.endTime b) = true ->
  containsNow (getMinutes currentTime) (bufferBlock currentTime b) = true.
Proof.
  intros Hnow Hen He.
  destruct (getMinutes_wellFormed _ Hnow) as (c & Hc & _).
  destruct (getMinutes_wellFormed _ Hen) as (e & Hem & _).
  pose proof (lt_minutes _ _ c e Hnow Hen Hc Hem He).
  unfold containsNow. cbn [bufferBlock TimeBlock.startTime TimeBlock.endTime].
  rewrite Hc, Hem. apply andb_true_iff. rewrite N.leb_le, N.ltb_lt. lia.
Qed.

(** X25. Completing the task of the block in progress hands the rest of
    the block to the buffer: when the times of today's blocks are well
    formed and [B] is the only block that contains the current minute,
    then after the task of [B] is completed at a time strictly inside [B],
    the active block of the focus view is the "Efficiency Bonus" block
    made from [B]. *)
Theorem completion_makes_buffer_active days todayStr currentTime taskId prev
    (B : TimeBlock.t) :
  let pre := getDayData days todayStr in
  (exists t, In t (DayData.tasks pre) /\ Task.id t = taskId) ->
  (forall t, In t (DayData.tasks pre) -> Task.id t = taskId ->
             Task.completed t = false) ->
  wellFormedTime currentTime = true ->
  (forall b, In b (DayData.schedule pre) ->
     wellFormedTime (TimeBlock.startTime b) = true /\
     wellFormedTime (TimeBlock.endTime b) = true) ->
  In B (DayData.schedule pre) ->
  TimeBlock.taskId B = Some taskId ->
  Js.lt (TimeBlock.startTime B) currentTime = true ->
  Js.lt currentTime (TimeBlock.endTime B) = true ->
  (forall b, In b (DayData.schedule pre) ->
     containsNow (getMinutes currentTime) b = true -> b = B) ->
  exists r : DayData.t,
    handleToggleTask days todayStr todayStr currentTime taskId prev !! todayStr
    = Some r /\
    activeBlock r (getMinutes currentTime) = Some (bufferBlock currentTime B) /\
    TimeBlock.label (bufferBlock currentTime B) = "Efficiency Bonus" /\
    TimeBlock.startTime (bufferBlock currentTime B) = currentTime /\
    TimeBlock.endTime (bufferBlock currentTime B) = TimeBlock.endTime B.
Proof.
  intros pre Hsome Hopen Hnow Hwf HB Hid Hs He Honly.
  eexists. split;
    [apply (toggle_completes_record days todayStr currentTime taskId prev Hsome Hopen)|].
  split; [|repeat split].
  fold pre. set (f := completeBlock currentTime taskId).
  assert (Hbuf : In (bufferBlock currentTime B) (flat_map f (DayData.schedule pre))).
  { apply in_flat_map. exists B. split; [exact HB|]. unfold f.
    rewrite (completeBlock_in_progress _ _ _ Hid Hs He). right. left. reflexivity. }
  assert (Hact : containsNow (getMinutes currentTime) (bufferBlock currentTime B) = true)
    by (apply containsNow_bufferBlock; [exact Hnow | apply (Hwf B HB) | exact He]).
  assert (Huniq : forall b', In b' (flat_map f (DayData.schedule pre)) ->
            containsNow (getMinutes currentTime) b' = true ->
            b' = bufferBlock currentTime B).
  { intros b' Hb' Hc. apply in_flat_map in Hb'. destruct Hb' as (b0 & Hb0 & Hb').
    destruct (Hwf b0 Hb0) as [Hst0 Hen0].
    unfold f, completeBlock in Hb'.
    destruct (TimeBlock.hasTask b0 taskId) eqn:Hhas.
    - destruct (Js.gt currentTime (TimeBlock.startTime b0)) eqn:Hs0; cbn [andb] in Hb'.
      + destruct (Js.lt currentTime (TimeBlock.endTime b0)) eqn:He0.
        * assert (b0 = B) as ->
            by (apply (Honly b0 Hb0), containsNow_in_progress; assumption).
          destruct Hb' as [<-|[<-|[]]]; [|reflexivity].
          rewrite containsNow_completedBlock in Hc. discriminate.
        * destruct Hb' as [<-|[]].
          assert (b0 = B) as -> by (apply (Honly b0 Hb0); exact Hc).
          congruence.
      + destruct Hb' as [<-|[]].
        assert (b0 = B) as -> by (apply (Honly b0 Hb0); exact Hc).
        unfold Js.gt in Hs0. unfold Js.lt in Hs. congruence.
    - destruct Hb' as [<-|[]].
      assert (b0 = B) as -> by (apply (Honly b0 Hb0); exact Hc).
      apply hasTask_iff in Hid. congruence. }
  unfold activeBlock, todayScheduleSorted. cbn [DayData.schedule].
  destruct (find _ _) as [b'|] eqn:Hfind.
  - apply find_some in Hfind. destruct Hfind as [Hin Hc].
    apply (proj1 (In_sortByStart _ b')) in Hin. f_equal. apply Huniq; assumption.
  - exfalso. apply (proj2 (In_sortByStart _ _)) in Hbuf.
    rewrite (find_none _ _ Hfind _ Hbuf) in Hact. discriminate.
Qed.

End ActiveAfterCompletion.

Lemma completion_makes_buffer_active_witness :
  let pre := getDayData Sample.days Sample.today in
  (exists t, In t (DayData.tasks pre) /\ Task.id t = "X") /\
  (forall t, In t (DayData.tasks pre) -> Task.id t = "X" ->
             Task.completed t = false) /\
  (forall b, In b (DayData.schedule pre) ->
     wellFormedTime (TimeBlock.startTime b) = true /\
     wellFormedTime (TimeBlock.endTime b) = true) /\
  (forall b, In b (DayData.schedule pre) ->
     containsNow (getMinutes "09:30") b = true -> b = Sample.blockX) /\
  exists r : DayData.t,
    handleToggleTask Sample.days Sample.today Sample.today "09:30" "X" Sample.days
      !! Sample.today = Some r /\
    activeBlock r (getMinutes "09:30") = Some (bufferBlock "09:30" Sample.blockX) /\
    TimeBlock.label (bufferBlock "09:30" Sample.blockX) = "Efficiency Bonus" /\
    TimeBlock.startTime (bufferBlock "09:30" Sample.blockX) = "09:30" /\
    TimeBlock.endTime (bufferBlock "09:30" Sample.blockX) = "10:30".
Proof.
  cbv zeta.
  assert (Hsome : exists t, In t (DayData.tasks (getDayData Sample.days Sample.today))
                            /\ Task.id t = "X")
    by (exists Sample.taskX; split; [left; reflexivity | reflexivity]).
  assert (Hopen : forall t, In t (DayData.tasks (getDayData Sample.days Sample.today)) ->
                            Task.id t = "X" -> Task.completed t = false)
    by (intros t [<- | []] _; reflexivity).
  assert (Hwf : forall b,
            In b (DayData.schedule (getDayData Sample.days Sample.today)) ->
            wellFormedTime (TimeBlock.startTime b) = true /\
            wellFormedTime (TimeBlock.endTime b) = true)
    by (intros b [<-|[<-|[<-|[]]]]; split; reflexivity).
  assert (Honly : forall b,
            In b (DayData.schedule (getDayData Sample.days Sample.today)) ->
            containsNow (getMinutes "09:30") b = true -> b = Sample.blockX)
    by (intros b [<-|[<-|[<-|[]]]] H; (reflexivity || discriminate H)).
  split; [exact Hsome|]. split; [exact Hopen|]. split; [exact Hwf|].
  split; [exact Honly|].
  apply (completion_makes_buffer_active Sample.days Sample.today "09:30" "X"
           Sample.days Sample.blockX Hsome Hopen eq_refl Hwf
           (or_intror (or_introl eq_refl)) eq_refl eq_refl eq_refl Honly).
Defined.

Lemma focus_view_now_mode_witness :
  (forall b, In b (DayData.schedule Sample.day) ->
             exists x, getMinutes (TimeBlock.startTime b) = Some x) /\
  activeBlock Sample.day (getMinutes "09:45") = Some Sample.blockX /\
  (forall b' y, In b' (DayData.schedule Sample.day) ->
     containsNow (getMinutes "09:45") b' = true ->
     getMinutes (TimeBlock.startTime b') = Some y -> (540 <= y)%N) /\
  nextBlock Sample.day (getMinutes "10:45") = Some Sample.blockLater.
Proof.
  assert (Hknown : forall b, In b (DayData.schedule Sample.day) ->
                             exists x, getMinutes (TimeBlock.startTime b) = Some x)
    by (intros b [<-|[<-|[<-|[]]]]; eexists; reflexivity).
  split; [exact Hknown|].
  destruct (focus_view_now_mode Sample.day (getMinutes "09:45") Hknown)
    as (Hactive & _ & _).
  destruct (Hactive Sample.blockX 540%N eq_refl eq_refl) as (_ & _ & Hmin).
  split; [reflexivity|]. split; [exact Hmin | reflexivity].
Defined.

Lemma adaptiveReplan_tasks_witness :
  let result :=
    adaptiveReplan Sample.reply Sample.clock Sample.clock
      [Sample.taskX] "09:45" "23:59" "Replanning for remainder of day." in
  Sample.reply [Sample.taskX] "09:45" "23:59" "Replanning for remainder of day."
  <> None /\
  length (ReplanResult.tasks result) = 1 /\
  forall (i : nat) (t' : Task.t),
    ReplanResult.tasks result !! i = Some t' -> Task.id t' <> "".
Proof.
  cbv zeta. split; [discriminate|].
  destruct (adaptiveReplan_tasks Sample.reply Sample.clock Sample.clock
              [Sample.taskX] "09:45" "Replanning for remainder of day." _ eq_refl)
    as (Hlen & Hids).
  split; [exact Hlen|].
  intros i t' Ht'. destruct (Hids i t' Ht') as (t & _ & Hne & _). exact Hne.
Defined.

Lemma adaptiveReplan_linking_witness :
  let result :=
    adaptiveReplan Sample.reply Sample.clock Sample.clock
      [Sample.taskX] "09:45" "23:59" "Replanning for remainder of day." in
  exists b : TimeBlock.t,
    ReplanResult.schedule result !! 0%nat = Some b /\
    exists t, In t (ReplanResult.tasks result) /\
              TimeBlock.taskId b = Some (Task.id t).
Proof.
  cbv zeta.
  destruct (adaptiveReplan_linking Sample.reply Sample.clock Sample.clock
              [Sample.taskX] "09:45" "Replanning for remainder of day." _ 0%nat _
              eq_refl eq_refl)
    as (b & Hb & _ & _ & Hwork).
  exists b. split; [exact Hb|]. apply Hwork; [reflexivity|].
  exists Sample.taskX. split; [left; reflexivity | reflexivity].
Defined.

Lemma getCurrentTimeStr_wellFormed_witness :
  (9 < 24)%N /\ (5 < 60)%N /\
  wellFormedTime (getCurrentTimeStr 9 5) = true /\
  getMinutes (getCurrentTimeStr 9 5) = Some (9 * 60 + 5)%N.
Proof.
  split; [lia|]. split; [lia|]. apply getCurrentTimeStr_wellFormed; lia.
Defined.

(** ** Changes made while a replan is in flight, and the split that stays *)

Section InFlightAndAsymmetry.

Variable generateContent :
  list Task.t -> string -> string -> string -> option ReplanData.t.
Variable dateNowTask : nat -> N.
Variable dateNowBlock : nat -> N.

Implicit Types (days prev : gmap string DayData.t).
Implicit Types (todayStr currentTime taskId : string).

(** X27. A replan writes back what it read when it started: whatever the
    handlers that ran while the gateway call was in flight did to today's
    record, the record after the replan has the distractions and the undo
    snapshot of the record read at the start, and the tasks and blocks
    computed from it; the other dates keep what those handlers wrote. *)
Theorem replan_overwrites_in_flight_changes days todayStr currentTime
    (customContext : option string) (inFlight : gmap string DayData.t) :
  let pre := getDayData days todayStr in
  let result :=
    adaptiveReplan generateContent dateNowTask dateNowBlock
      (DayData.tasks pre) currentTime "23:59" (contextOrDefault customContext) in
  let next :=
    nextDays inFlight
      (handleReplan generateContent dateNowTask dateNowBlock days todayStr todayStr
         currentTime customContext inFlight) in
  (exists r : DayData.t,
     next !! todayStr = Some r /\
     DayData.distractions r = DayData.distractions pre /\
     DayData.previousVersion r = Some (snapshotOf pre) /\
     DayData.tasks r = ReplanResult.tasks result /\
     DayData.schedule r
     = (preserveHistory currentTime (DayData.schedule pre)
        ++ ReplanResult.schedule result)%list) /\
  (forall other, other <> todayStr -> next !! other = inFlight !! other) /\
  (forall notes,
     inFlight = handleUpdateDistractions days todayStr notes days ->
     DayData.distractions (getDayData inFlight todayStr) = Some notes /\
     DayData.distractions (getDayData next todayStr) = DayData.distractions pre).
Proof.
  intros pre result next.
  pose proof (replan_record generateContent dateNowTask dateNowBlock
                days todayStr currentTime customContext inFlight) as Hrec.
  cbv zeta in Hrec. fold next in Hrec. fold pre in Hrec. fold result in Hrec.
  split; [|split].
  - eexists. split; [exact Hrec|]. repeat split.
  - intros other Hne. unfold next. rewrite handleReplan_today. cbn [nextDays].
    apply lookup_updateDayData_ne. exact Hne.
  - intros notes ->. split.
    + unfold handleUpdateDistractions. rewrite getDayData_updateDayData. reflexivity.
    + rewrite (getDayData_lookup _ _ _ Hrec). reflexivity.
Qed.

End InFlightAndAsymmetry.

Section SplitStays.

Implicit Types (days prev : gmap string DayData.t).
Implicit Types (todayStr currentTime taskId : string).

(** The record written by a toggle that un-completes the task. *)
Lemma toggle_uncompletes_record days selectedDate todayStr currentTime taskId prev :
  let pre := getDayData days selectedDate in
  (exists t, In t (DayData.tasks pre) /\ Task.id t = taskId) ->
  (forall t, In t (DayData.tasks pre) -> Task.id t = taskId ->
             Task.completed t = true) ->
  handleToggleTask days selectedDate todayStr currentTime taskId prev !! selectedDate
  = Some (DayData.mk
            (map (fun t => if String.eqb (Task.id t) taskId
                           then Task.withCompleted t (negb (Task.completed t))
                           else t) (DayData.tasks pre))
            (map (markBlock taskId false) (DayData.schedule pre))
            (DayData.explanation pre) (DayData.date pre)
            (DayData.distractions pre) (DayData.previousVersion pre)).
Proof.
  intros pre Hsome Hdone. unfold handleToggleTask. fold pre.
  pose proof (fold_toggleStep_tasks taskId (DayData.tasks pre) ([], false)) as Ht.
  pose proof (fold_toggleStep_flag_of taskId true (DayData.tasks pre) ([], false)
                Hdone (or_intror Hsome)) as Hf.
  fold (toggleTasks taskId (DayData.tasks pre)) in Ht, Hf.
  destruct (toggleTasks taskId (DayData.tasks pre)) as [newTasks flag].
  cbn [fst snd app negb] in Ht, Hf. subst newTasks flag.
  rewrite lookup_updateDayData_eq.
  destruct (String.eqb selectedDate todayStr); reflexivity.
Qed.

Lemma length_map_markBlock taskId (c : bool) (l : list TimeBlock.t) :
  length (map (markBlock taskId c) l) = length l.
Proof. apply List.length_map. Qed.

(** X28. Un-completing a task does not undo the split: on today, after the
    task of a block in progress is completed and then toggled back, the
    task list is as before, but the schedule still has the two halves of
    the block, the first with the " (Done)" label, both with
    [isCompleted] false on the blocks of the task, and it is longer than
    the schedule before by the number of blocks that were split. *)
Theorem uncomplete_keeps_split days todayStr (now1 now2 : string) taskId
    (l1 l2 : list TimeBlock.t) (B : TimeBlock.t) :
  let pre := getDayData days todayStr in
  let days1 := handleToggleTask days todayStr todayStr now1 taskId days in
  let days2 := handleToggleTask days1 todayStr todayStr now2 taskId days1 in
  let f := completeBlock now1 taskId in
  let g := markBlock taskId false in
  (exists t, In t (DayData.tasks pre) /\ Task.id t = taskId) ->
  (forall t, In t (DayData.tasks pre) -> Task.id t = taskId ->
             Task.completed t = false) ->
  DayData.schedule pre = (l1 ++ B :: l2)%list ->
  TimeBlock.taskId B = Some taskId ->
  Js.lt (TimeBlock.startTime B) now1 = true ->
  Js.lt now1 (TimeBlock.endTime B) = true ->
  exists r : DayData.t,
    days2 !! todayStr = Some r /\
    DayData.tasks r = DayData.tasks pre /\
    DayData.schedule r
    = (map g (flat_map f l1)
       ++ TimeBlock.withIsCompleted (completedBlock now1 B) false
       :: bufferBlock now1 B
       :: map g (flat_map f l2))%list /\
    length (DayData.schedule r)
    = (length (DayData.schedule pre)
       + length (List.filter
                   (fun b => TimeBlock.hasTask b taskId
                             && (Js.gt now1 (TimeBlock.startTime b)
                                 && Js.lt now1 (TimeBlock.endTime b)))
                   (DayData.schedule pre)))%nat.
Proof.
  intros pre days1 days2 f g Hsome Hopen Hsched Hid Hs He.
  pose proof (toggle_completes_record days todayStr now1 taskId days Hsome Hopen) as H1.
  fold days1 in H1. fold pre in H1.
  set (flip := fun t : Task.t =>
                 if String.eqb (Task.id t) taskId
                 then Task.withCompleted t (negb (Task.completed t)) else t) in *.
  pose proof (getDayData_lookup _ _ _ H1) as Hpre1.
  assert (Hsome1 : exists t, In t (DayData.tasks (getDayData days1 todayStr))
                             /\ Task.id t = taskId).
  { rewrite Hpre1. cbn [DayData.tasks]. destruct Hsome as (t & Ht & Htid).
    exists (flip t). split; [exact (in_map flip _ t Ht)|].
    unfold flip. destruct (String.eqb (Task.id t) taskId); exact Htid. }
  assert (Hdone1 : forall t, In t (DayData.tasks (getDayData days1 todayStr)) ->
                             Task.id t = taskId -> Task.completed t = true).
  { rewrite Hpre1. cbn [DayData.tasks]. intros t' Ht' Hid'.
    apply in_map_iff in Ht'. destruct Ht' as (t & <- & Ht).
    unfold flip in *. destruct (String.eqb (Task.id t) taskId) eqn:E.
    - cbn. apply String.eqb_eq in E. rewrite (Hopen t Ht E). reflexivity.
    - apply String.eqb_neq in E. contradiction. }
  pose proof (toggle_uncompletes_record days1 todayStr todayStr now2 taskId days1
                Hsome1 Hdone1) as H2.
  fold days2 in H2. rewrite Hpre1 in H2.
  cbn [DayData.tasks DayData.schedule DayData.explanation DayData.date
       DayData.distractions DayData.previousVersion] in H2.
  eexists. split; [exact H2|]. cbn [DayData.tasks DayData.schedule].
  split; [|split].
  - rewrite List.map_map. etransitivity; [|apply List.map_id].
    apply List.map_ext. intros t. unfold flip.
    destruct (String.eqb (Task.id t) taskId) eqn:E; cbn; rewrite E; [|reflexivity].
    destruct t. cbn. rewrite negb_involutive. reflexivity.
  - rewrite Hsched, flat_map_app, List.map_app. cbn [flat_map].
    rewrite (completeBlock_in_progress _ _ _ Hid Hs He).
    unfold g. cbn [app map].
    assert (Hc : markBlock taskId false (completedBlock now1 B)
                 = TimeBlock.withIsCompleted (completedBlock now1 B) false).
    { unfold markBlock, TimeBlock.hasTask. cbn [completedBlock TimeBlock.taskId].
      rewrite Hid, String.eqb_refl. reflexivity. }
    assert (Hb : markBlock taskId false (bufferBlock now1 B) = bufferBlock now1 B)
      by reflexivity.
    rewrite Hc, Hb. reflexivity.
  - rewrite length_map_markBlock. apply length_flat_map_completeBlock.
Qed.

End SplitStays.

Lemma uncomplete_keeps_split_witness :
  let pre := getDayData Sample.days Sample.today in
  let days1 :=
    handleToggleTask Sample.days Sample.today Sample.today "09:30" "X" Sample.days in
  let days2 := handleToggleTask days1 Sample.today Sample.today "09:40" "X" days1 in
  (exists t, In t (DayData.tasks pre) /\ Task.id t = "X") /\
  (forall t, In t (DayData.tasks pre) -> Task.id t = "X" ->
             Task.completed t = false) /\
  exists r : DayData.t,
    days2 !! Sample.today = Some r /\
    DayData.tasks r = DayData.tasks pre /\
    map TimeBlock.label (DayData.schedule r)
    = ["Morning review"; "Write report (Done)"; "Efficiency Bonus"; "Reading"] /\
    length (DayData.schedule r) = 4%nat.
Proof.
  cbv zeta.
  assert (Hsome : exists t, In t (DayData.tasks (getDayData Sample.days Sample.today))
                            /\ Task.id t = "X")
    by (exists Sample.taskX; split; [left; reflexivity | reflexivity]).
  assert (Hopen : forall t, In t (DayData.tasks (getDayData Sample.days Sample.today)) ->
                            Task.id t = "X" -> Task.completed t = false)
    by (intros t [<- | []] _; reflexivity).
  split; [exact Hsome|]. split; [exact Hopen|].
  destruct (uncomplete_keeps_split Sample.days Sample.today "09:30" "09:40" "X"
              [Sample.blockDone] [Sample.blockLater] Sample.blockX
              Hsome Hopen eq_refl eq_refl eq_refl eq_refl)
    as (r & Hr & Htasks & Hsched & Hlen).
  exists r. split; [exact Hr|]. split; [exact Htasks|].
  split; [rewrite Hsched; reflexivity | rewrite Hlen; reflexivity].
Defined.

(** ** The chat gateways *)

Section CoachFacts.

Variable chatSend :
  list ChatMessage.t -> string -> option string -> option (option string).
Variable coachContent :
  list ChatMessage.t -> string -> string -> option AssistantResponse.t.

(** X29. [fastChatResponse] never answers with the empty string, and a
    message of fewer than two characters once trimmed gets the request for
    clarification whatever the chat would have answered. *)
Theorem fastChatResponse_reply (history : list ChatMessage.t) (newMessage : string)
    (context : option string) :
  fastChatResponse chatSend history newMessage context <> "" /\
  (String.length (JsText.trim newMessage) < 2 ->
   fastChatResponse chatSend history newMessage context
   = "Could you clarify what you mean?") /\
  (2 <= String.length (JsText.trim newMessage) ->
   chatSend history newMessage context = None ->
   fastChatResponse chatSend history newMessage context
   = "Connection error. Focus on your task.").
Proof.
  unfold fastChatResponse.
  destruct (Nat.ltb_spec (String.length (JsText.trim newMessage)) 2) as [Hshort|Hlong].
  - rewrite orb_true_r. split; [discriminate|]. split; [reflexivity | lia].
  - rewrite orb_false_r.
    assert (Htr : Js.truthy (JsText.trim newMessage) = true)
      by (destruct (JsText.trim newMessage); [cbn in Hlong; lia | reflexivity]).
    rewrite Htr. cbn [negb]. split; [|split; [lia|]].
    + destruct (chatSend history newMessage context) as [[t|]|]; try discriminate.
      destruct (Js.truthy t) eqn:E; [|discriminate].
      apply truthy_nonempty. exact E.
    + intros _ ->. reflexivity.
Qed.

(** X30. The floating assistant acts on the store only on an explicit
    intent of a parsed reply: with a blank input, a send while loading, a
    failed call or the intent NONE no action is handed on; a completion is
    handed on only with a non-empty task id; and an action handed on is the
    one the reply names. *)
Theorem coachAction_needs_intent (input : string) (isLoading : bool)
    (messages : list ChatMessage.t) (context : string) :
  let action := coachAction coachContent input isLoading messages context in
  (JsText.trim input = "" -> action = None) /\
  (isLoading = true -> action = None) /\
  (coachContent (sliceLast 8 messages) context input = None -> action = None) /\
  (forall a, action = Some a ->
     exists response,
       coachContent (sliceLast 8 messages) context input = Some response /\
       ((AssistantResponse.intent response = AssistantResponse.REPLAN /\
         a = REPLAN (AssistantResponse.replanContext response)) \/
        (AssistantResponse.intent response = AssistantResponse.MARK_COMPLETE /\
         exists id, id <> "" /\ AssistantResponse.taskId response = Some id /\
                    a = MARK_COMPLETE id))).
Proof.
  cbv zeta. unfold coachAction, getFloatingCoachResponse.
  split; [intros ->; reflexivity|].
  split; [intros ->; rewrite orb_true_r; reflexivity|].
  destruct (Js.truthy (JsText.trim input)) eqn:Htr; cbn [negb orb];
    [|split; [reflexivity | intros a; discriminate]].
  destruct isLoading; [split; [reflexivity | intros a; discriminate]|].
  destruct (coachContent (sliceLast 8 messages) context input) as [response|];
    cbn [AssistantResponse.intent];
    [|split; [reflexivity | intros a; discriminate]].
  split; [discriminate|]. intros a Ha. exists response. split; [reflexivity|].
  destruct (AssistantResponse.intent response); [discriminate | |].
  - left. split; [reflexivity | congruence].
  - right. split; [reflexivity|].
    destruct (AssistantResponse.taskId response) as [id|]; [|discriminate].
    destruct (Js.truthy id) eqn:Hid; [|discriminate].
    exists id. split; [apply truthy_nonempty, Hid|]. split; [reflexivity | congruence].
Qed.

End CoachFacts.
